(** * facecraft: the portrait pipeline, embedded and verified

    A shallow embedding of [src/facecraft/processing]:
    - [face_detection.py]   ([FaceDetector])
    - [face_enhancement.py] ([FaceEnhancer])
    - [background.py]       ([BackgroundRemover])
    - [photo_enhancement.py] ([PhotoEnhancer], [OvalMask], [ImageResizer])
    - [processor.py]        ([PhotoProcessor])

    and of what builds the processor and keeps its figures:
    - the constructors of these classes ([Loading])
    - [core/config.py]      ([Settings]: model paths, device, CORS origins)
    - [api/dependencies.py] ([init_processor], [record_processing_time])

    Python values are modelled as follows.
    - [int] is [Z]; [float] is the kernel's binary64 ([PrimFloat]), the
      same format CPython and numpy's float64 use.
    - an exception is a value of [Py.exn]; code that may raise returns
      [Py.result]; only subclasses of [Exception] are modelled, and
      what the code prints is not.
    - a numpy array of dtype uint8 is an [ndarray]: its shape and a
      function from indices to values.
    - the processor's [stats] dict and the file system are finite maps
      with string keys ([gmap]).
    - OpenCV, dlib, rembg, PIL, facexlib and the CodeFormer network are
      not code of this repository.  The numeric kernels of OpenCV and
      PIL are the fields of [Cv2.kernels]; what these libraries fix about
      shapes and about rejected arguments is written out around them.
      The detector, the landmark predictor, the matting model, the
      restoration helper and the network are fields of the objects that
      hold them, each a function that may raise.
    - [process_image] runs in a state-and-exception monad over
      [Processor.Machine], whose [trace] logs the stages a call starts
      and the files it writes.
    - a [str] is a [string]; where the code looks at its characters
      ([split], [strip]) it is the list of its code points ([Str.str]).
    - what the constructors load (dlib, torch, rembg, facexlib, the file
      system) is a [Loading.Runtime], each loader a value that may be an
      exception. *)

From Stdlib Require Import ZArith Lia Bool List String.
From Stdlib Require Import PrimFloat FloatOps SpecFloat Uint63.
From stdpp Require Import base option list gmap strings.
From Equations Require Import Equations.

Set Warnings "-inexact-float".
Open Scope Z_scope.

(* ===================================================================== *)
(** ** Python: exceptions, results, numbers *)
(* ===================================================================== *)

Module Py.

(** An exception: its class name and [str(e)]. *)
Inductive exn : Type := Exn (cls msg : string).

Definition str (e : exn) : string := let 'Exn _ m := e in m.

Inductive result (A : Type) : Type :=
| Ok (a : A)
| Raise (e : exn).
Arguments Ok {A} a.
Arguments Raise {A} e.

Definition is_ok {A} (r : result A) : bool :=
  match r with Ok _ => true | Raise _ => false end.

Definition bind {A B} (r : result A) (k : A -> result B) : result B :=
  match r with Ok a => k a | Raise e => Raise e end.

#[global] Instance result_ret : MRet result := fun _ a => Ok a.
#[global] Instance result_bind : MBind result := fun _ _ k r => bind r k.

Definition ValueError (msg : string) : exn := Exn "ValueError" msg.
Definition IndexError (msg : string) : exn := Exn "IndexError" msg.
Definition KeyError (key : string) : exn := Exn "KeyError" key.
Definition OverflowError (msg : string) : exn := Exn "OverflowError" msg.
Definition ZeroDivisionError : exn := Exn "ZeroDivisionError" "division by zero".
Definition FileNotFoundError (path : string) : exn := Exn "FileNotFoundError" path.

(** [float(n)]: round to nearest even, as CPython does.  The
    conversion goes through a 63-bit integer; it is the Python value
    for [|n| < 2^63], far above any image dimension or counter. *)
Definition float_of_int (n : Z) : float :=
  if n <? 0 then PrimFloat.opp (PrimFloat.of_uint63 (Uint63.of_Z (- n)))
  else PrimFloat.of_uint63 (Uint63.of_Z n).

(** [int(x)] of a float: truncation towards zero; infinities and NaN
    raise. *)
Definition int_of_float (x : float) : result Z :=
  match Prim2SF x with
  | S754_zero _ => Ok 0
  | S754_finite s m e =>
      let mag := if 0 <=? e then Z.pos m * 2 ^ e else Z.pos m / 2 ^ (- e) in
      Ok (if s then - mag else mag)
  | S754_infinity _ => Raise (OverflowError "cannot convert float infinity to integer")
  | S754_nan => Raise (ValueError "cannot convert float NaN to integer")
  end.

(** [a / b] on two ints: true division, [ZeroDivisionError] on [b = 0].
    For operands below [2^53] in magnitude the correctly rounded
    quotient is the binary64 quotient of the converted operands. *)
Definition truediv (a b : Z) : result float :=
  if b =? 0 then Raise ZeroDivisionError
  else Ok (PrimFloat.div (float_of_int a) (float_of_int b)).

(** [a // b]: floor division. *)
Definition floordiv (a b : Z) : result Z :=
  if b =? 0 then Raise ZeroDivisionError else Ok (a / b).

(** [min(a, b)] and [max(a, b)] keep the first argument unless the
    second compares strictly below (above) it. *)
Definition fmin (a b : float) : float := if PrimFloat.ltb b a then b else a.
Definition fgt (a b : float) : bool := PrimFloat.ltb b a.

(** A Python slice [i:j] on a sequence of length [n]. *)
Definition slice_index (n i : Z) : Z :=
  if i <? 0 then Z.max (i + n) 0 else Z.min i n.
Definition slice_start (n i : Z) : Z := slice_index n i.
Definition slice_len (n i j : Z) : Z :=
  Z.max (slice_index n j - slice_index n i) 0.

(** Truthiness of an [Optional[int]]: [None] and [0] are false. *)
Definition truthy (o : option Z) : bool :=
  match o with None => false | Some n => negb (n =? 0) end.

End Py.

Export Py(result, Ok, Raise, result_ret, result_bind).
Abbreviation exn := Py.exn.

(* ===================================================================== *)
(** ** numpy: arrays of dtype uint8 *)
(* ===================================================================== *)

(** An array of shape [(rows, cols)] ([depth = None]) or
    [(rows, cols, d)] ([depth = Some d]).  [px y x c] is the element at
    row [y], column [x], channel [c] ([c] is ignored by a 2-D array). *)
Record ndarray : Type := mk_ndarray {
  rows : Z;
  cols : Z;
  depth : option Z;
  px : Z -> Z -> Z -> Z
}.

Module Np.

(** [len(a.shape)] *)
Definition ndim (a : ndarray) : Z :=
  match depth a with None => 2 | Some _ => 3 end.

(** [a.shape[2]] *)
Definition shape2 (a : ndarray) : result Z :=
  match depth a with
  | Some d => Ok d
  | None => Raise (Py.IndexError "tuple index out of range")
  end.

Definition is_empty (a : ndarray) : bool :=
  (rows a <=? 0) || (cols a <=? 0) || (match depth a with Some d => d <=? 0 | None => false end).

(** [np.zeros((h, w, d), dtype=np.uint8)] *)
Definition zeros3 (h w d : Z) : result ndarray :=
  if (h <? 0) || (w <? 0) || (d <? 0)
  then Raise (Py.ValueError "negative dimensions are not allowed")
  else Ok (mk_ndarray h w (Some d) (fun _ _ _ => 0)).

(** [np.zeros((h, w), dtype=np.uint8)] *)
Definition zeros2 (h w : Z) : result ndarray :=
  if (h <? 0) || (w <? 0)
  then Raise (Py.ValueError "negative dimensions are not allowed")
  else Ok (mk_ndarray h w None (fun _ _ _ => 0)).

Definition color_at (color : Z * Z * Z) (c : Z) : Z :=
  let '(c0, c1, c2) := color in
  if c =? 0 then c0 else if c =? 1 then c1 else c2.

(** [np.full((h, w, 3), color, dtype=np.uint8)]: the triple is laid
    along the last axis in the order given. *)
Definition full3 (h w : Z) (color : Z * Z * Z) : result ndarray :=
  if (h <? 0) || (w <? 0)
  then Raise (Py.ValueError "negative dimensions are not allowed")
  else Ok (mk_ndarray h w (Some 3) (fun _ _ c => color_at color c)).

(** [a[:, :, :k]] *)
Definition take_channels (a : ndarray) (k : Z) : result ndarray :=
  match depth a with
  | None => Raise (Py.IndexError "too many indices for array")
  | Some d => Ok (mk_ndarray (rows a) (cols a) (Some (Py.slice_len d 0 k)) (px a))
  end.

(** [a[:, :, k]] for [0 <= k]: a 2-D array. *)
Definition channel (a : ndarray) (k : Z) : result ndarray :=
  match depth a with
  | None => Raise (Py.IndexError "too many indices for array")
  | Some d =>
      if k <? d
      then Ok (mk_ndarray (rows a) (cols a) None (fun y x _ => px a y x k))
      else Raise (Py.IndexError "index is out of bounds for axis 2")
  end.

(** [a[y1:y2, x1:x2]] *)
Definition crop (a : ndarray) (y1 y2 x1 x2 : Z) : ndarray :=
  let ys := Py.slice_start (rows a) y1 in
  let xs := Py.slice_start (cols a) x1 in
  mk_ndarray (Py.slice_len (rows a) y1 y2) (Py.slice_len (cols a) x1 x2) (depth a)
             (fun y x c => px a (ys + y) (xs + x) c).

(** [np.dstack([a, p])] for a 3-D [a] and a 2-D [p]. *)
Definition dstack (a p : ndarray) : result ndarray :=
  match depth a, depth p with
  | Some d, None =>
      if (rows a =? rows p) && (cols a =? cols p)
      then Ok (mk_ndarray (rows a) (cols a) (Some (d + 1))
                 (fun y x c => if c <? d then px a y x c else px p y x 0))
      else Raise (Py.ValueError "all the input array dimensions must match exactly")
  | _, _ => Raise (Py.ValueError "all the input array dimensions must match exactly")
  end.

(** Broadcasting of one axis of length [n] against a target axis of
    length [s]. *)
Definition bcast (n s : Z) : bool := (n =? s) || (n =? 1).
Definition bidx (n i : Z) : Z := if n =? 1 then 0 else i.

(** The shape of the right-hand side as seen from the three axes of the
    target, trailing axes aligned: a 2-D [(r, c)] lines up with the
    target's columns and channels. *)
Definition src_axes (src : ndarray) : Z * Z * Z :=
  match depth src with
  | Some d => (rows src, cols src, d)
  | None => (1, rows src, cols src)
  end.

Definition src_at (src : ndarray) (y x c : Z) : Z :=
  let '(n0, n1, n2) := src_axes src in
  match depth src with
  | Some _ => px src (bidx n0 y) (bidx n1 x) (bidx n2 c)
  | None => px src (bidx n1 x) (bidx n2 c) 0
  end.

Definition in_window (s len i : Z) : bool := (s <=? i) && (i <? s + len).

(** [dst[y0:y1, x0:x1] = src] on a 3-D [dst]. *)
Definition assign_window (dst : ndarray) (y0 y1 x0 x1 : Z) (src : ndarray)
  : result ndarray :=
  match depth dst with
  | None => Raise (Py.ValueError "could not broadcast input array")
  | Some d =>
      let ys := Py.slice_start (rows dst) y0 in
      let xs := Py.slice_start (cols dst) x0 in
      let sh := Py.slice_len (rows dst) y0 y1 in
      let sw := Py.slice_len (cols dst) x0 x1 in
      let '(n0, n1, n2) := src_axes src in
      if bcast n0 sh && bcast n1 sw && bcast n2 d
      then Ok (mk_ndarray (rows dst) (cols dst) (Some d)
                 (fun y x c =>
                    if in_window ys sh y && in_window xs sw x
                    then src_at src (y - ys) (x - xs) c
                    else px dst y x c))
      else Raise (Py.ValueError "could not broadcast input array")
  end.

(** [dst[:, :, k] = plane] for a 2-D [plane] of the same height and
    width (the only use in the sources). *)
Definition assign_channel (dst : ndarray) (k : Z) (plane : ndarray) : result ndarray :=
  match depth dst, depth plane with
  | Some d, None =>
      if negb (k <? d) then Raise (Py.IndexError "index is out of bounds for axis 2")
      else if bcast (rows plane) (rows dst) && bcast (cols plane) (cols dst)
      then Ok (mk_ndarray (rows dst) (cols dst) (Some d)
                 (fun y x c =>
                    if c =? k
                    then px plane (bidx (rows plane) y) (bidx (cols plane) x) 0
                    else px dst y x c))
      else Raise (Py.ValueError "could not broadcast input array")
  | _, _ => Raise (Py.ValueError "could not broadcast input array")
  end.

(** Sum of [f] over [lo, lo + n). *)
Fixpoint sum_range (f : Z -> Z) (lo : Z) (n : nat) : Z :=
  match n with
  | O => 0
  | S k => f lo + sum_range f (lo + 1) k
  end.

(** [np.mean(p)] of a non-empty uint8 plane: the integer sum is exact
    in float64, one division rounds. *)
Definition mean (p : ndarray) (c : Z) : float :=
  let total := sum_range (fun y => sum_range (fun x => px p y x c) 0 (Z.to_nat (cols p)))
                         0 (Z.to_nat (rows p)) in
  PrimFloat.div (Py.float_of_int total) (Py.float_of_int (rows p * cols p)).

(** Storing a float64 into a uint8 array: the C conversion, truncation
    towards zero, reduced modulo 256. *)
Definition to_uint8 (x : float) : Z :=
  match Py.int_of_float x with
  | Ok n => n mod 256
  | Raise _ => 0
  end.

End Np.

(* ===================================================================== *)
(** ** OpenCV and PIL, as the sources call them *)
(* ===================================================================== *)

Module Cv2.

(** The numeric kernels of the libraries.  Each gives the values of
    the output; the shape of the output and the arguments the library
    rejects are fixed by the wrappers below. *)
Record kernels : Type := {
  (** BGR2GRAY on one pixel: [b g r] to luminance *)
  gray_of : Z -> Z -> Z -> Z;
  (** BGR2LAB and LAB2BGR on one pixel *)
  lab_of_bgr : Z * Z * Z -> Z * Z * Z;
  bgr_of_lab : Z * Z * Z -> Z * Z * Z;
  (** [createCLAHE(clipLimit, tileGridSize).apply(plane)] *)
  clahe : float -> Z * Z -> ndarray -> Z -> Z -> Z;
  (** [addWeighted] on one element: [a, alpha, b, beta, gamma] *)
  add_weighted : Z -> float -> Z -> float -> float -> Z;
  (** [x ** y] on floats *)
  fpow : float -> float -> float;
  (** [bilateralFilter(src, d, sigmaColor, sigmaSpace)] *)
  bilateral : ndarray -> Z -> float -> float -> Z -> Z -> Z -> Z;
  (** [filter2D(src, -1, kernel)] *)
  filter2D_k : ndarray -> list (list Z) -> Z -> Z -> Z -> Z;
  (** [ImageEnhance.Contrast(img).enhance(f)], [ImageEnhance.Color(img).enhance(f)] *)
  pil_contrast : ndarray -> float -> Z -> Z -> Z -> Z;
  pil_color : ndarray -> float -> Z -> Z -> Z -> Z;
  (** [resize(src, (w, h), interpolation=INTER_LANCZOS4)] *)
  lanczos4 : ndarray -> Z -> Z -> Z -> Z -> Z -> Z;
  (** the pixels [ellipse(.., center, axes, 0, 0, 360, .., -1)] fills:
      centre x y, axes x y, then the pixel's x y *)
  ellipse_fill : Z -> Z -> Z -> Z -> Z -> Z -> bool;
  (** [GaussianBlur(plane, (k, k), sigma)] at row [y], column [x] *)
  gaussian : ndarray -> Z -> Z -> Z -> Z -> Z;
  (** [np.arctan2], [np.degrees] *)
  arctan2 : float -> float -> float;
  degrees : float -> float;
  (** [warpAffine(src, getRotationMatrix2D(center, angle, 1.0), (w, h),
      INTER_CUBIC, BORDER_CONSTANT, 0)] *)
  warp_rotate : ndarray -> float * float -> float -> Z -> Z -> Z -> Z;
  (** size in bytes of the PNG encoding (compression 9) and of the JPEG
      encoding at a quality *)
  png_size : ndarray -> Z;
  jpeg_size : ndarray -> Z -> Z
}.

Definition error (msg : string) : exn := Py.Exn "cv2.error" msg.

Definition has_3_or_4 (a : ndarray) : bool :=
  match depth a with
  | Some d => (d =? 3) || (d =? 4)
  | None => false
  end.

(** The check every [cvtColor] starts with: a non-empty source with 3
    or 4 channels. *)
Definition color_source_ok (a : ndarray) : bool :=
  negb (Np.is_empty a) && has_3_or_4 a.

(** [cvtColor(a, COLOR_BGR2GRAY)]: a 2-D array. *)
Definition cvtColor_BGR2GRAY (K : kernels) (a : ndarray) : result ndarray :=
  if color_source_ok a
  then Ok (mk_ndarray (rows a) (cols a) None
             (fun y x _ => gray_of K (px a y x 0) (px a y x 1) (px a y x 2)))
  else Raise (error "cvtColor: invalid number of channels or empty input").

Definition swap_rb (c : Z) : Z := if c =? 0 then 2 else if c =? 2 then 0 else c.

(** [cvtColor(a, COLOR_BGR2RGB)] and [COLOR_RGB2BGR]: three channels,
    the first and the third exchanged. *)
Definition cvtColor_BGR2RGB (a : ndarray) : result ndarray :=
  if color_source_ok a
  then Ok (mk_ndarray (rows a) (cols a) (Some 3) (fun y x c => px a y x (swap_rb c)))
  else Raise (error "cvtColor: invalid number of channels or empty input").

(** [COLOR_RGB2BGR] is the same exchange. *)
Definition cvtColor_RGB2BGR (a : ndarray) : result ndarray := cvtColor_BGR2RGB a.

Definition alpha_of (a : ndarray) (y x : Z) : Z :=
  match depth a with
  | Some 4 => px a y x 3
  | _ => 255
  end.

(** [cvtColor(a, COLOR_RGBA2BGRA)]: four channels, colours exchanged,
    alpha kept (255 when the source has none). *)
Definition cvtColor_RGBA2BGRA (a : ndarray) : result ndarray :=
  if color_source_ok a
  then Ok (mk_ndarray (rows a) (cols a) (Some 4)
             (fun y x c => if c =? 3 then alpha_of a y x else px a y x (swap_rb c)))
  else Raise (error "cvtColor: invalid number of channels or empty input").

(** [cvtColor(a, COLOR_BGR2BGRA)]: four channels, colours kept, alpha
    255 when the source has none. *)
Definition cvtColor_BGR2BGRA (a : ndarray) : result ndarray :=
  if color_source_ok a
  then Ok (mk_ndarray (rows a) (cols a) (Some 4)
             (fun y x c => if c =? 3 then alpha_of a y x else px a y x c))
  else Raise (error "cvtColor: invalid number of channels or empty input").

Definition triple_at (t : Z * Z * Z) (c : Z) : Z := Np.color_at t c.
Definition pixel3 (a : ndarray) (y x : Z) : Z * Z * Z :=
  (px a y x 0, px a y x 1, px a y x 2).

(** [cvtColor(a, COLOR_BGR2LAB)] *)
Definition cvtColor_BGR2LAB (K : kernels) (a : ndarray) : result ndarray :=
  if color_source_ok a
  then Ok (mk_ndarray (rows a) (cols a) (Some 3)
             (fun y x c => triple_at (lab_of_bgr K (pixel3 a y x)) c))
  else Raise (error "cvtColor: invalid number of channels or empty input").

(** [cvtColor(a, COLOR_LAB2BGR)]: the source must have exactly three
    channels. *)
Definition cvtColor_LAB2BGR (K : kernels) (a : ndarray) : result ndarray :=
  if negb (Np.is_empty a) && (match depth a with Some 3 => true | _ => false end)
  then Ok (mk_ndarray (rows a) (cols a) (Some 3)
             (fun y x c => triple_at (bgr_of_lab K (pixel3 a y x)) c))
  else Raise (error "cvtColor: invalid number of channels or empty input").

(** [l, a, b = cv2.split(lab)] on a 3-channel array. *)
Definition split3 (a : ndarray) : result (ndarray * ndarray * ndarray) :=
  match depth a with
  | Some 3 =>
      let plane k := mk_ndarray (rows a) (cols a) None (fun y x _ => px a y x k) in
      Ok (plane 0, plane 1, plane 2)
  | _ => Raise (Py.ValueError "not enough values to unpack")
  end.

Definition same_plane_shape (p q : ndarray) : bool :=
  (rows p =? rows q) && (cols p =? cols q)
  && (match depth p, depth q with None, None => true | _, _ => false end).

(** [cv2.merge([p0, p1, p2])] of three 2-D planes. *)
Definition merge3 (p0 p1 p2 : ndarray) : result ndarray :=
  if same_plane_shape p0 p1 && same_plane_shape p0 p2
  then Ok (mk_ndarray (rows p0) (cols p0) (Some 3)
             (fun y x c => if c =? 0 then px p0 y x 0
                           else if c =? 1 then px p1 y x 0 else px p2 y x 0))
  else Raise (error "merge: planes differ in size or depth").

(** [clahe.apply(p)] on a non-empty 2-D plane. *)
Definition clahe_apply (K : kernels) (clip : float) (tiles : Z * Z) (p : ndarray)
  : result ndarray :=
  match depth p with
  | None =>
      if Np.is_empty p then Raise (error "CLAHE: empty input")
      else Ok (mk_ndarray (rows p) (cols p) None (fun y x _ => clahe K clip tiles p y x))
  | Some _ => Raise (error "CLAHE: expected a single channel")
  end.

(** [addWeighted(p, alpha, q, beta, gamma)] on two planes of one shape. *)
Definition addWeighted (K : kernels) (p : ndarray) (alpha : float) (q : ndarray)
           (beta gamma : float) : result ndarray :=
  if same_plane_shape p q
  then Ok (mk_ndarray (rows p) (cols p) None
             (fun y x _ => add_weighted K (px p y x 0) alpha (px q y x 0) beta gamma))
  else Raise (error "addWeighted: the operands differ in size").

(** [cv2.LUT(p, table)] with a table of 256 entries. *)
Definition LUT (p : ndarray) (table : Z -> Z) : ndarray :=
  mk_ndarray (rows p) (cols p) (depth p) (fun y x c => table (px p y x c)).

(** [bilateralFilter(a, d, sigmaColor, sigmaSpace)]: one or three
    channels. *)
Definition bilateralFilter (K : kernels) (a : ndarray) (d : Z) (sc ss : float)
  : result ndarray :=
  match depth a with
  | Some 3 =>
      if Np.is_empty a then Raise (error "bilateralFilter: empty input")
      else Ok (mk_ndarray (rows a) (cols a) (Some 3) (bilateral K a d sc ss))
  | _ => Raise (error "bilateralFilter: expected 8-bit, 1 or 3 channels")
  end.

(** [filter2D(a, -1, kernel)] *)
Definition filter2D (K : kernels) (a : ndarray) (kernel : list (list Z)) : result ndarray :=
  if Np.is_empty a then Raise (error "filter2D: empty input")
  else Ok (mk_ndarray (rows a) (cols a) (depth a) (filter2D_k K a kernel)).

(** A [Mat] with one channel comes back to Python as a 2-D array. *)
Definition mat_depth (d : option Z) : option Z :=
  match d with Some 1 => None | _ => d end.

(** [resize(a, (w, h), interpolation=INTER_LANCZOS4)]: an empty source
    or an empty target size is rejected. *)
Definition resize (K : kernels) (a : ndarray) (w h : Z) : result ndarray :=
  if Np.is_empty a then Raise (error "resize: the source is empty")
  else if (w <=? 0) || (h <=? 0) then Raise (error "resize: the output size is empty")
  else Ok (mk_ndarray h w (mat_depth (depth a)) (lanczos4 K a w h)).

(** [ellipse(mask, (cx, cy), (rx, ry), 0, 0, 360, 255, -1)] on a 2-D
    mask: drawn in place, pixels of the filled ellipse set to 255.
    Negative axes are rejected. *)
Definition ellipse (K : kernels) (mask : ndarray) (cx cy rx ry : Z) : result ndarray :=
  if (rx <? 0) || (ry <? 0) then Raise (error "ellipse: axes.width >= 0 && axes.height >= 0")
  else Ok (mk_ndarray (rows mask) (cols mask) (depth mask)
             (fun y x c => if ellipse_fill K cx cy rx ry x y then 255 else px mask y x c)).

(** [GaussianBlur(p, (k, k), sigma)]: the kernel size must be odd and
    positive. *)
Definition GaussianBlur (K : kernels) (p : ndarray) (k sigma : Z) : result ndarray :=
  if (0 <? k) && (k mod 2 =? 1)
  then Ok (mk_ndarray (rows p) (cols p) (depth p) (fun y x _ => gaussian K p k sigma y x))
  else Raise (error "GaussianBlur: ksize must be odd and positive").

(** One element of [multiply(a, m, scale=1/255.0)] on uint8 operands:
    the product over 255, rounded to the nearest integer.  255 is odd,
    so [a * m / 255] is never halfway between two integers and the
    rounding does not depend on the floating-point width used. *)
Definition mul_div255 (a m : Z) : Z := (2 * a * m + 255) / 510.

(** [multiply(p, q, scale=1/255.0)] on two planes of one shape. *)
Definition multiply_scaled (p q : ndarray) : result ndarray :=
  if same_plane_shape p q
  then Ok (mk_ndarray (rows p) (cols p) None
             (fun y x _ => mul_div255 (px p y x 0) (px q y x 0)))
  else Raise (error "multiply: the operands differ in size").

(** [warpAffine] by the rotation about [center]; the output has the
    size asked for and the channels of the source. *)
Definition warp_rotation (K : kernels) (a : ndarray) (center : float * float)
           (angle : float) (w h : Z) : result ndarray :=
  if Np.is_empty a then Raise (error "warpAffine: empty input")
  else if (w <=? 0) || (h <=? 0) then Raise (error "warpAffine: empty output size")
  else Ok (mk_ndarray h w (mat_depth (depth a)) (warp_rotate K a center angle)).

End Cv2.

(* ===================================================================== *)
(** ** dlib: rectangles and landmark sets *)
(* ===================================================================== *)

Module Dlib.

Record rectangle : Type := mk_rectangle {
  left : Z;
  top : Z;
  right : Z;
  bottom : Z
}.

Definition is_empty (r : rectangle) : bool :=
  (right r <? left r) || (bottom r <? top r).

Definition width (r : rectangle) : Z :=
  if is_empty r then 0 else right r - left r + 1.

Definition height (r : rectangle) : Z :=
  if is_empty r then 0 else bottom r - top r + 1.

(** A [full_object_detection]: its parts, in order. *)
Definition full_object_detection : Type := list (Z * Z).

Definition part (d : full_object_detection) (i : nat) : result (Z * Z) :=
  match d !! i with
  | Some p => Ok p
  | None => Raise (Py.IndexError "Index out of range")
  end.

End Dlib.

Export Dlib(rectangle, mk_rectangle).

(* ===================================================================== *)
(** ** face_detection.py *)
(* ===================================================================== *)

Module FaceDetection.
Import Dlib.

(** A [FaceDetector] object: dlib's frontal face detector (applied to
    a grayscale image with one upsampling) and the shape predictor,
    [None] when no model was loaded. *)
Record FaceDetector : Type := {
  face_detector : ndarray -> result (list rectangle);
  predictor : option (ndarray -> rectangle -> result full_object_detection)
}.

Definition has_predictor (self : FaceDetector) : bool :=
  match predictor self with Some _ => true | None => false end.

Definition area (r : rectangle) : Z := width r * height r.

(** [sorted(faces, key=area, reverse=True)]: decreasing keys, equal
    keys in their original order. *)
Fixpoint insert_by_area (r : rectangle) (l : list rectangle) : list rectangle :=
  match l with
  | [] => [r]
  | r' :: l' =>
      if area r' <=? area r then r :: l else r' :: insert_by_area r l'
  end.

Definition sorted_by_area_desc (l : list rectangle) : list rectangle :=
  foldr insert_by_area [] l.

Definition to_gray (K : Cv2.kernels) (image : ndarray) : result ndarray :=
  if Np.ndim image =? 3 then Cv2.cvtColor_BGR2GRAY K image else Ok image.

Definition detect_face (K : Cv2.kernels) (self : FaceDetector) (image : ndarray)
  : result (option rectangle) :=
  gray ← to_gray K image;
  faces ← face_detector self gray;
  if Z.of_nat (length faces) =? 0 then Ok None
  else
    let faces := if 1 <? Z.of_nat (length faces) then sorted_by_area_desc faces else faces in
    match faces with
    | r :: _ => Ok (Some r)
    | [] => Raise (Py.IndexError "list index out of range")
    end.

Definition detect_all_faces (K : Cv2.kernels) (self : FaceDetector) (image : ndarray)
  : result (list rectangle) :=
  gray ← to_gray K image;
  face_detector self gray.

Definition get_landmarks (K : Cv2.kernels) (self : FaceDetector) (image : ndarray)
           (face_rect : rectangle) : result (option full_object_detection) :=
  match predictor self with
  | None => Ok None
  | Some predict =>
      gray ← to_gray K image;
      lm ← predict gray face_rect;
      Ok (Some lm)
  end.

(** [[(landmarks.part(i).x, landmarks.part(i).y) for i in range(a, b)]] *)
Fixpoint parts_from (lm : full_object_detection) (a : nat) (n : nat)
  : result (list (Z * Z)) :=
  match n with
  | O => Ok []
  | S k =>
      p ← part lm a;
      ps ← parts_from lm (S a) k;
      Ok (p :: ps)
  end.

(** [np.mean(points, axis=0)]: the integer sums are exact, one division
    by the count rounds. *)
Definition mean_point (ps : list (Z * Z)) : float * float :=
  let n := Py.float_of_int (Z.of_nat (length ps)) in
  let sx := foldr (fun p acc => fst p + acc) 0 ps in
  let sy := foldr (fun p acc => snd p + acc) 0 ps in
  (PrimFloat.div (Py.float_of_int sx) n, PrimFloat.div (Py.float_of_int sy) n).

Definition align_face (K : Cv2.kernels) (image : ndarray) (landmarks : full_object_detection)
  : result ndarray :=
  left_pts ← parts_from landmarks 36 6;
  let left_eye := mean_point left_pts in
  right_pts ← parts_from landmarks 42 6;
  let right_eye := mean_point right_pts in
  let dx := PrimFloat.sub (fst right_eye) (fst left_eye) in
  let dy := PrimFloat.sub (snd right_eye) (snd left_eye) in
  let angle := Cv2.degrees K (Cv2.arctan2 K dy dx) in
  let center :=
    (PrimFloat.div (PrimFloat.add (fst left_eye) (fst right_eye)) 2,
     PrimFloat.div (PrimFloat.add (snd left_eye) (snd right_eye)) 2) in
  let h := rows image in
  let w := cols image in
  Cv2.warp_rotation K image center angle w h.

Definition crop_face (image : ndarray) (face_rect : rectangle) (margin : float)
  : result ndarray :=
  let h := rows image in
  let w := cols image in
  let face_w := width face_rect in
  let face_h := height face_rect in
  margin_w ← Py.int_of_float (PrimFloat.mul (Py.float_of_int face_w) margin);
  margin_h ← Py.int_of_float (PrimFloat.mul (Py.float_of_int face_h) margin);
  top_margin ← Py.int_of_float (PrimFloat.mul (Py.float_of_int margin_h) 1.5);
  let x1 := Z.max 0 (left face_rect - margin_w) in
  let y1 := Z.max 0 (top face_rect - top_margin) in
  let x2 := Z.min w (right face_rect + margin_w) in
  let y2 := Z.min h (bottom face_rect + margin_h) in
  Ok (Np.crop image y1 y2 x1 x2).

(** *** Notions the properties of this module are stated with *)

(** The primary face in the words of the design: the face of greatest
    area, the first found among equals. *)
Fixpoint primary_face (faces : list rectangle) : option rectangle :=
  match faces with
  | [] => None
  | r :: rest =>
      match primary_face rest with
      | None => Some r
      | Some r' => if area r' <=? area r then Some r else Some r'
      end
  end.

End FaceDetection.

(* ===================================================================== *)
(** ** face_enhancement.py *)
(* ===================================================================== *)

Module FaceEnhancement.

(** facexlib's [FaceRestoreHelper]: an object with a state of its own
    and methods that may raise.  [helper_now] is the state the object
    is in when [enhance] is entered. *)
Record FaceRestoreHelper : Type := {
  helper_state : Type;
  helper_now : helper_state;
  clean_all : helper_state -> result helper_state;
  read_image : ndarray -> helper_state -> result helper_state;
  (** [get_face_landmarks_5(only_center_face=False, resize=640,
      eye_dist_threshold=5)] *)
  get_face_landmarks_5 : helper_state -> result helper_state;
  align_warp_face : helper_state -> result helper_state;
  cropped_faces : helper_state -> list ndarray;
  add_restored_face : ndarray -> helper_state -> result helper_state;
  (** [get_inverse_affine(None)] *)
  get_inverse_affine : helper_state -> result helper_state;
  (** [paste_faces_to_input_image(upsample_img=.., draw_box=False)] *)
  paste_faces_to_input_image : ndarray -> helper_state -> result ndarray
}.

(** The CodeFormer network on one cropped face: the conversion to a
    normalised tensor, the inference at a fidelity weight, and the
    conversion back to a uint8 RGB array. *)
Definition CodeFormer : Type := ndarray -> float -> result ndarray.

Record FaceEnhancer : Type := {
  codeformer_net : option CodeFormer;
  face_helper : option FaceRestoreHelper
}.

Definition is_available (self : FaceEnhancer) : bool :=
  match codeformer_net self, face_helper self with
  | Some _, Some _ => true
  | _, _ => false
  end.

(** The loop over [cropped_faces]. *)
Fixpoint restore_faces (net : CodeFormer) (H : FaceRestoreHelper) (w : float)
         (faces : list ndarray) (hs : helper_state H) : result (helper_state H) :=
  match faces with
  | [] => Ok hs
  | cropped_face :: rest =>
      restored_face ← net cropped_face w;
      restored_face ← Cv2.cvtColor_RGB2BGR restored_face;
      hs ← add_restored_face H restored_face hs;
      restore_faces net H w rest hs
  end.

(** The first half of the [try] block: the helper looks for faces in
    the RGB copy of the image and warps them. *)
Definition detect_phase (H : FaceRestoreHelper) (image : ndarray)
  : result (ndarray * helper_state H) :=
  hs ← clean_all H (helper_now H);
  img_rgb ← Cv2.cvtColor_BGR2RGB image;
  hs ← read_image H img_rgb hs;
  hs ← get_face_landmarks_5 H hs;
  hs ← align_warp_face H hs;
  Ok (img_rgb, hs).

(** The body of the [try] block. *)
Definition enhance_body (net : CodeFormer) (H : FaceRestoreHelper) (image : ndarray)
           (fidelity_weight : float) : result ndarray :=
  let img_original := image in
  '(img_rgb, hs) ← detect_phase H image;
  if Z.of_nat (length (cropped_faces H hs)) =? 0 then Ok img_original
  else
    hs ← restore_faces net H fidelity_weight (cropped_faces H hs) hs;
    img_bgr ← Cv2.cvtColor_RGB2BGR img_rgb;
    hs ← get_inverse_affine H hs;
    paste_faces_to_input_image H img_bgr hs.

(** [FaceEnhancer.enhance]: [except Exception] returns the argument. *)
Definition enhance (self : FaceEnhancer) (image : ndarray) (fidelity_weight : float)
  : result ndarray :=
  match codeformer_net self, face_helper self with
  | Some net, Some H =>
      match enhance_body net H image fidelity_weight with
      | Ok restored_img => Ok restored_img
      | Raise _ => Ok image
      end
  | _, _ => Ok image
  end.

End FaceEnhancement.

(* ===================================================================== *)
(** ** background.py *)
(* ===================================================================== *)

Module Background.

(** A [BackgroundRemover]: rembg's [remove] with the session of the
    object, from an RGB array to an RGBA array. *)
Record BackgroundRemover : Type := {
  remove : ndarray -> result ndarray
}.

Definition remove_background (self : BackgroundRemover) (image : ndarray)
  : result ndarray :=
  image_rgb ← Cv2.cvtColor_BGR2RGB image;
  image_rgba ← remove self image_rgb;
  Cv2.cvtColor_RGBA2BGRA image_rgba.

(** One element of [(bg * (1 - alpha) + v * alpha)] with
    [alpha = a / 255.0], stored as uint8. *)
Definition blend (bg v a : Z) : Z :=
  let alpha := PrimFloat.div (Py.float_of_int a) 255 in
  Np.to_uint8
    (PrimFloat.add (PrimFloat.mul (Py.float_of_int bg) (PrimFloat.sub 1 alpha))
                   (PrimFloat.mul (Py.float_of_int v) alpha)).

(** The flattening of a 4-channel image onto a solid colour, shared by
    [apply_background_color] and [_save_output]. *)
Definition flatten (image : ndarray) (background_color : Z * Z * Z) : result ndarray :=
  result ← Np.full3 (rows image) (cols image) background_color;
  Ok (mk_ndarray (rows image) (cols image) (Some 3)
        (fun y x c => blend (px result y x c) (px image y x c) (px image y x 3))).

Definition apply_background_color (image : ndarray) (background_color : Z * Z * Z)
  : result ndarray :=
  d ← Np.shape2 image;
  if negb (d =? 4) then Ok image
  else flatten image background_color.

End Background.

(* ===================================================================== *)
(** ** photo_enhancement.py *)
(* ===================================================================== *)

Module PhotoEnhancement.

(** *** PhotoEnhancer *)

(** [table[i] = (((i / 255.0) ** inv_gamma) * 255).astype("uint8")] *)
Definition gamma_table (K : Cv2.kernels) (inv_gamma : float) (i : Z) : Z :=
  Np.to_uint8
    (PrimFloat.mul (Cv2.fpow K (PrimFloat.div (Py.float_of_int i) 255) inv_gamma) 255).

Definition _auto_exposure (K : Cv2.kernels) (image : ndarray) : result ndarray :=
  lab ← Cv2.cvtColor_BGR2LAB K image;
  '(l, a, b) ← Cv2.split3 lab;
  let mean_brightness := Np.mean l 0 in
  let target_brightness := 140%float in
  let brightness_diff := PrimFloat.sub target_brightness mean_brightness in
  l ← (if Py.fgt (PrimFloat.abs brightness_diff) 10
       then
         l_clahe ← Cv2.clahe_apply K 1.5 (8, 8) l;
         let alpha_blend := Py.fmin (PrimFloat.div (PrimFloat.abs brightness_diff) 50) 0.7 in
         l ← Cv2.addWeighted K l (PrimFloat.sub 1 alpha_blend) l_clahe alpha_blend 0;
         if Py.fgt brightness_diff 20
         then
           let gamma := Py.fmin (PrimFloat.add 1 (PrimFloat.div brightness_diff 200)) 1.4 in
           let inv_gamma := PrimFloat.div 1 gamma in
           Ok (Cv2.LUT l (gamma_table K inv_gamma))
         else Ok l
       else Ok l);
  lab ← Cv2.merge3 l a b;
  Cv2.cvtColor_LAB2BGR K lab.

(** [np.clip(x, 0, 255)] on one float *)
Definition clip_0_255 (x : float) : float :=
  if PrimFloat.ltb x 0 then 0%float
  else if PrimFloat.ltb 255 x then 255%float else x.

(** [min(gray / avg if avg > 0 else 1.0, 1.5)] *)
Definition channel_scale (gray avg : float) : float :=
  Py.fmin (if Py.fgt avg 0 then PrimFloat.div gray avg else 1%float) 1.5.

Definition _auto_white_balance (image : ndarray) : result ndarray :=
  let result := image in
  p0 ← Np.channel result 0;
  let avg_b := Np.mean p0 0 in
  p1 ← Np.channel result 1;
  let avg_g := Np.mean p1 0 in
  p2 ← Np.channel result 2;
  let avg_r := Np.mean p2 0 in
  let gray := PrimFloat.div (PrimFloat.add (PrimFloat.add avg_b avg_g) avg_r) 3 in
  let scale_b := channel_scale gray avg_b in
  let scale_g := channel_scale gray avg_g in
  let scale_r := channel_scale gray avg_r in
  let scaled (scale : float) (v : Z) : Z :=
    Np.to_uint8 (clip_0_255 (PrimFloat.mul (Py.float_of_int v) scale)) in
  Ok (mk_ndarray (rows result) (cols result) (depth result)
        (fun y x c =>
           if c =? 0 then scaled scale_b (px result y x 0)
           else if c =? 1 then scaled scale_g (px result y x 1)
           else if c =? 2 then scaled scale_r (px result y x 2)
           else px result y x c)).

Definition sharpen_kernel : list (list Z) :=
  [[0; -1; 0]; [-1; 5; -1]; [0; -1; 0]].

(** [Image.fromarray(rgb)], an [ImageEnhance] at a factor, [np.array]. *)
Definition pil_enhance (k : ndarray -> float -> Z -> Z -> Z -> Z) (rgb : ndarray)
           (factor : float) : ndarray :=
  mk_ndarray (rows rgb) (cols rgb) (depth rgb) (k rgb factor).

Definition enhance (K : Cv2.kernels) (image : ndarray) : result ndarray :=
  bgr ← Np.take_channels image 3;
  d ← Np.shape2 image;
  alpha ← (if d =? 4 then a ← Np.channel image 3; Ok (Some a) else Ok None);
  bgr ← _auto_exposure K bgr;
  bgr ← Cv2.bilateralFilter K bgr 5 40 40;
  bgr ← _auto_white_balance bgr;
  bgr ← Cv2.filter2D K bgr sharpen_kernel;
  rgb ← Cv2.cvtColor_BGR2RGB bgr;
  let pil_img := pil_enhance (Cv2.pil_contrast K) rgb 1.15 in
  let pil_img := pil_enhance (Cv2.pil_color K) pil_img 1.15 in
  bgr ← Cv2.cvtColor_RGB2BGR pil_img;
  match alpha with
  | Some alpha => Np.dstack bgr alpha
  | None => Ok bgr
  end.

(** *** OvalMask *)

Definition OvalMask_apply (K : Cv2.kernels) (image : ndarray) (feather : Z)
  : result ndarray :=
  let h := rows image in
  let w := cols image in
  bgra ← (if Np.ndim image =? 2 then Cv2.cvtColor_BGR2BGRA image
          else
            d ← Np.shape2 image;
            if d =? 3 then Cv2.cvtColor_BGR2BGRA image else Ok image);
  mask ← Np.zeros2 h w;
  let center_x := w / 2 in
  let center_y := h / 2 in
  radius_x ← Py.int_of_float (PrimFloat.mul (Py.float_of_int w) 0.48);
  radius_y ← Py.int_of_float (PrimFloat.mul (Py.float_of_int h) 0.48);
  mask ← Cv2.ellipse K mask center_x center_y radius_x radius_y;
  mask_blurred ← Cv2.GaussianBlur K mask feather (feather / 2);
  a ← Np.channel bgra 3;
  new_alpha ← Cv2.multiply_scaled a mask_blurred;
  Np.assign_channel bgra 3 new_alpha.

(** The default [feather]. *)
Definition default_feather : Z := 21.

(** *** ImageResizer *)

(** The opaque paste of a 4-channel [resized]: for [c] in [range(3)],
    [canvas[win, c] = canvas[win, c] * (1 - alpha) + resized[:, :, c] * alpha]. *)
Definition composite_window (canvas : ndarray) (y0 y1 x0 x1 : Z) (resized : ndarray)
  : result ndarray :=
  let ys := Py.slice_start (rows canvas) y0 in
  let xs := Py.slice_start (cols canvas) x0 in
  let sh := Py.slice_len (rows canvas) y0 y1 in
  let sw := Py.slice_len (cols canvas) x0 x1 in
  if Np.bcast (rows resized) sh && Np.bcast (cols resized) sw
  then Ok (mk_ndarray (rows canvas) (cols canvas) (depth canvas)
             (fun y x c =>
                if Np.in_window ys sh y && Np.in_window xs sw x && (0 <=? c) && (c <? 3)
                then
                  let sy := Np.bidx (rows resized) (y - ys) in
                  let sx := Np.bidx (cols resized) (x - xs) in
                  Background.blend (px canvas y x c) (px resized sy sx c) (px resized sy sx 3)
                else px canvas y x c))
  else Raise (Py.ValueError "operands could not be broadcast together").

(** [int(w * ratio)], [int(h * ratio)] with
    [ratio = min(target_w / w, target_h / h)]. *)
Definition scaled_size (w h target_w target_h : Z) : result (Z * Z) :=
  rw ← Py.truediv target_w w;
  rh ← Py.truediv target_h h;
  let ratio := Py.fmin rw rh in
  new_w ← Py.int_of_float (PrimFloat.mul (Py.float_of_int w) ratio);
  new_h ← Py.int_of_float (PrimFloat.mul (Py.float_of_int h) ratio);
  Ok (new_w, new_h).

Definition resize_with_padding (K : Cv2.kernels) (image : ndarray)
           (target_size : Z * Z) (background_color : Z * Z * Z) (use_transparent : bool)
  : result ndarray :=
  let h := rows image in
  let w := cols image in
  let '(target_w, target_h) := target_size in
  '(new_w, new_h) ← scaled_size w h target_w target_h;
  resized ← Cv2.resize K image new_w new_h;
  canvas ← (if use_transparent then Np.zeros3 target_h target_w 4
            else Np.full3 target_h target_w background_color);
  let y_offset := (target_h - new_h) / 2 in
  let x_offset := (target_w - new_w) / 2 in
  if match depth resized with Some 4 => true | _ => false end
  then
    if use_transparent
    then Np.assign_window canvas y_offset (y_offset + new_h) x_offset (x_offset + new_w) resized
    else composite_window canvas y_offset (y_offset + new_h) x_offset (x_offset + new_w) resized
  else
    if use_transparent
    then
      bgra ← Cv2.cvtColor_BGR2BGRA resized;
      Np.assign_window canvas y_offset (y_offset + new_h) x_offset (x_offset + new_w) bgra
    else Np.assign_window canvas y_offset (y_offset + new_h) x_offset (x_offset + new_w) resized.

(** *** Notions the properties of this module are stated with *)

(** A non-empty colour image of a given height and width. *)
Definition bgr_of_size (h w : Z) (a : ndarray) : Prop :=
  rows a = h /\ cols a = w /\ depth a = Some 3.



(** The mask [OvalMask.apply] draws: 255 inside the ellipse, 0 outside. *)
Definition ellipse_mask (K : Cv2.kernels) (h w rx ry : Z) : ndarray :=
  mk_ndarray h w None
    (fun y x _ => if Cv2.ellipse_fill K (w / 2) (h / 2) rx ry x y then 255 else 0).

(** The mask after feathering, at row [y] and column [x]. *)
Definition feathered (K : Cv2.kernels) (h w rx ry feather y x : Z) : Z :=
  Cv2.gaussian K (ellipse_mask K h w rx ry) feather (feather / 2) y x.



End PhotoEnhancement.

(* ===================================================================== *)
(** ** processor.py *)
(* ===================================================================== *)

Module Processor.
Import Dlib.

Record ProcessingResult : Type := mk_result {
  success : bool;
  face_detected : bool;
  face_count : Z;
  face_position : option (gmap string Z);
  output_path : option string;
  png_path : option string;
  jpg_path : option string;
  file_size_bytes : Z;
  error : option string
}.

(** [ProcessingResult(success=b)]: every other field at its default. *)
Definition new_result (b : bool) : ProcessingResult :=
  mk_result b false 0 None None None None 0 None.

Definition with_error (r : ProcessingResult) (e : string) : ProcessingResult :=
  mk_result (success r) (face_detected r) (face_count r) (face_position r)
            (output_path r) (png_path r) (jpg_path r) (file_size_bytes r) (Some e).

Definition with_png (r : ProcessingResult) (p : string) (size : Z) : ProcessingResult :=
  mk_result (success r) (face_detected r) (face_count r) (face_position r)
            (Some p) (Some p) (jpg_path r) size (error r).

Definition with_jpg_path (r : ProcessingResult) (p : string) : ProcessingResult :=
  mk_result (success r) (face_detected r) (face_count r) (face_position r)
            (output_path r) (png_path r) (Some p) (file_size_bytes r) (error r).

Definition with_output (r : ProcessingResult) (p : string) (size : Z) : ProcessingResult :=
  mk_result (success r) (face_detected r) (face_count r) (face_position r)
            (Some p) (png_path r) (jpg_path r) size (error r).

Definition with_face (r : ProcessingResult) (pos : gmap string Z) : ProcessingResult :=
  mk_result (success r) true 1 (Some pos)
            (output_path r) (png_path r) (jpg_path r) (file_size_bytes r) (error r).

Record ProcessingOptions : Type := mk_options {
  width : Z;
  height : Z;
  background_color : Z * Z * Z;
  face_margin : float;
  use_oval_mask : bool;
  enhance_face : bool;
  enhance_fidelity : float;
  enhance_photo : bool;
  max_jpeg_size_kb : option Z
}.

Definition default_options : ProcessingOptions :=
  mk_options 648 648 (240, 240, 240) 0.3 true true 0.7 true (Some 99).

(** What a call sees of the operating system and of the libraries:
    the kernels of OpenCV, [cv2.imread] ([None] when the file cannot be
    read or decoded), and the path functions of [os.path] and
    [pathlib]. *)
Record Env : Type := {
  K : Cv2.kernels;
  imread : string -> option ndarray;
  dirname : string -> string;
  stem : string -> string;
  join : string -> string -> string
}.

(** A [PhotoProcessor] object without its counters. *)
Record PhotoProcessor : Type := {
  background_remover : Background.BackgroundRemover;
  face_detector : FaceDetection.FaceDetector;
  face_enhancer : FaceEnhancement.FaceEnhancer
}.



(** An encoded file: its size, and the JPEG quality it was written at
    ([None] for a PNG). *)
Record file : Type := mk_file {
  size_bytes : Z;
  jpeg_quality : option Z
}.

(** The calls a run makes, in order: one entry for each stage that
    [process_image] starts and for each [cv2.imwrite]. *)
Inductive event : Type :=
| LoadImage (path : string)
| RestoreFace
| DetectFace
| RemoveBackground
| GetLandmarks
| AlignFace
| CropFace (face_rect : rectangle)
| EnhancePhoto
| ApplyOvalMask
| ResizeWithPadding
| ImwritePng (path : string)
| ImwriteJpeg (path : string) (quality : Z).

(** The mutable state: [self.stats], the files written, and the log of
    calls. *)
Record Machine : Type := mk_machine {
  stats : gmap string Z;
  fs : gmap string file;
  trace : list event
}.

(** [self.stats] as [__init__] and [reset_stats] build it. *)
Definition initial_stats : gmap string Z :=
  <["total" := 0]> (<["success" := 0]> (<["no_face" := 0]> (<["errors" := 0]> ∅))).

Definition M (A : Type) : Type := Machine -> result A * Machine.

#[global] Instance M_ret : MRet M := fun _ a s => (Ok a, s).
#[global] Instance M_bind : MBind M := fun _ _ k m s =>
  match m s with
  | (Ok a, s') => k a s'
  | (Raise e, s') => (Raise e, s')
  end.

Definition lift {A} (r : result A) : M A := fun s => (r, s).

Definition tell (ev : event) : M unit := fun s =>
  (Ok tt, mk_machine (stats s) (fs s) (trace s ++ [ev])).

(** [try: body / except Exception as e: handler e] *)
Definition try_except {A} (body : M A) (handler : exn -> M A) : M A := fun s =>
  match body s with
  | (Ok a, s') => (Ok a, s')
  | (Raise e, s') => handler e s'
  end.

(** [self.stats[key] += 1] *)
Definition stats_incr (key : string) : M unit := fun s =>
  match stats s !! key with
  | Some n => (Ok tt, mk_machine (<[key := n + 1]> (stats s)) (fs s) (trace s))
  | None => (Raise (Py.KeyError key), s)
  end.

(** [cv2.imwrite(path, image, params)]: the file is created or
    replaced.  Directories are not modelled ([os.makedirs] has no
    counterpart here), and neither is a write that the operating system
    refuses. *)
Definition imwrite (path : string) (f : file) (ev : event) : M unit := fun s =>
  (Ok tt, mk_machine (stats s) (<[path := f]> (fs s)) (trace s ++ [ev])).

Definition imwrite_png (E : Env) (path : string) (image : ndarray) : M unit :=
  imwrite path (mk_file (Cv2.png_size (K E) image) None) (ImwritePng path).

Definition imwrite_jpeg (E : Env) (path : string) (image : ndarray) (quality : Z) : M unit :=
  imwrite path (mk_file (Cv2.jpeg_size (K E) image quality) (Some quality))
          (ImwriteJpeg path quality).

(** [os.path.getsize(path)] *)
Definition getsize (path : string) : M Z := fun s =>
  match fs s !! path with
  | Some f => (Ok (size_bytes f), s)
  | None => (Raise (Py.FileNotFoundError path), s)
  end.

(** The loop
    [while os.path.getsize(jpg_path) > max_size_bytes and quality > 50:
         quality -= 3; cv2.imwrite(jpg_path, jpeg_image, [.., quality])]. *)
Equations? quality_loop (E : Env) (jpg_path : string) (jpeg_image : ndarray)
           (max_size_bytes : Z) (quality : Z) (s : Machine)
  : result unit * Machine by wf (Z.to_nat (quality - 47)) lt :=
  quality_loop E jpg_path jpeg_image max_size_bytes quality s :=
    match getsize jpg_path s with
    | (Raise e, s') => (Raise e, s')
    | (Ok size, s') =>
        if max_size_bytes <? size
        then
          if Z_lt_dec 50 quality
          then
            match imwrite_jpeg E jpg_path jpeg_image (quality - 3) s' with
            | (Ok _, s'') =>
                quality_loop E jpg_path jpeg_image max_size_bytes (quality - 3) s''
            | (Raise e, s'') => (Raise e, s'')
            end
          else (Ok tt, s')
        else (Ok tt, s')
    end.
Proof. lia. Qed.

Definition save_jpeg (E : Env) (jpg_path : string) (jpeg_image : ndarray)
           (options : ProcessingOptions) : M unit :=
  if Py.truthy (max_jpeg_size_kb options)
  then
    let quality := 90 in
    let max_size_bytes := default 0 (max_jpeg_size_kb options) * 1024 in
    imwrite_jpeg E jpg_path jpeg_image quality;;
    quality_loop E jpg_path jpeg_image max_size_bytes quality
  else imwrite_jpeg E jpg_path jpeg_image 90.

Definition _save_output (E : Env) (image : ndarray) (output_path : string)
           (options : ProcessingOptions) : M ProcessingResult :=
  let result := new_result true in
  let output_dir := dirname E output_path in
  let base_name := stem E output_path in
  result ← (if use_oval_mask options
            then
              let png_path := join E output_dir (String.append base_name ".png") in
              imwrite_png E png_path image;;
              size ← getsize png_path;
              mret (with_png result png_path size)
            else mret result);
  let jpg_dir := join E output_dir "jpg" in
  let jpg_path := join E jpg_dir (String.append base_name ".jpg") in
  d ← lift (Np.shape2 image);
  jpeg_image ← (if d =? 4
                then lift (Background.flatten image (background_color options))
                else mret image);
  save_jpeg E jpg_path jpeg_image options;;
  let result := with_jpg_path result jpg_path in
  if negb (use_oval_mask options)
  then
    size ← getsize jpg_path;
    mret (with_output result jpg_path size)
  else mret result.

(** [ProcessingResult(success=False, face_detected=False,
    error="no_face_detected")] *)
Definition no_face_result : ProcessingResult :=
  with_error (new_result false) "no_face_detected".

(** The [face_position] dict built from the first detection. *)
Definition position_of (face_rect : rectangle) : gmap string Z :=
  <["x" := left face_rect]> (<["y" := top face_rect]>
    (<["width" := Dlib.width face_rect]> (<["height" := Dlib.height face_rect]> ∅))).

(** Step 5 of [process_image]: alignment and the second detection. *)
Definition align_and_redetect (E : Env) (self : PhotoProcessor) (image image_no_bg : ndarray)
           (face_rect : rectangle) : M (ndarray * rectangle) :=
  if FaceDetection.has_predictor (face_detector self)
  then
    tell GetLandmarks;;
    landmarks ← lift (FaceDetection.get_landmarks (K E) (face_detector self) image face_rect);
    match landmarks with
    | Some landmarks =>
        tell AlignFace;;
        image_no_bg ← lift (FaceDetection.align_face (K E) image_no_bg landmarks);
        tell DetectFace;;
        new_face_rect ← lift (FaceDetection.detect_face (K E) (face_detector self) image_no_bg);
        match new_face_rect with
        | Some new_face_rect => mret (image_no_bg, new_face_rect)
        | None => mret (image_no_bg, face_rect)
        end
    | None => mret (image_no_bg, face_rect)
    end
  else mret (image_no_bg, face_rect).

(** Steps 6 to 10 and the success return: the crop uses [face_rect],
    the result reports [face_position]. *)
Definition after_alignment (E : Env) (image_no_bg : ndarray) (face_rect : rectangle)
           (face_position : gmap string Z) (output_path : string)
           (options : ProcessingOptions) : M ProcessingResult :=
  cropped ← lift (FaceDetection.crop_face image_no_bg face_rect (face_margin options));
  enhanced ← (if enhance_photo options
              then tell EnhancePhoto;; lift (PhotoEnhancement.enhance (K E) cropped)
              else mret cropped);
  enhanced ← (if use_oval_mask options
              then
                tell ApplyOvalMask;;
                lift (PhotoEnhancement.OvalMask_apply (K E) enhanced
                        PhotoEnhancement.default_feather)
              else mret enhanced);
  tell ResizeWithPadding;;
  final ← lift (PhotoEnhancement.resize_with_padding (K E) enhanced
                  (width options, height options) (background_color options)
                  (use_oval_mask options));
  result ← _save_output E final output_path options;
  stats_incr "success";;
  mret (with_face result face_position).

(** Steps 4 to 10, entered with the first detection. *)
Definition after_detection (E : Env) (self : PhotoProcessor) (image : ndarray)
           (face_rect : rectangle) (output_path : string) (options : ProcessingOptions)
  : M ProcessingResult :=
  let face_position := position_of face_rect in
  tell RemoveBackground;;
  image_no_bg ← lift (Background.remove_background (background_remover self) image);
  '(image_no_bg, face_rect) ← align_and_redetect E self image image_no_bg face_rect;
  tell (CropFace face_rect);;
  after_alignment E image_no_bg face_rect face_position output_path options.

(** Step 2 of [process_image] on its own: what it leaves in [image]
    and whether it runs. *)
Definition restore_runs (self : PhotoProcessor) (options : ProcessingOptions) : bool :=
  enhance_face options && FaceEnhancement.is_available (face_enhancer self).

Definition restore_stage (self : PhotoProcessor) (options : ProcessingOptions)
           (image : ndarray) : result ndarray :=
  if restore_runs self options
  then FaceEnhancement.enhance (face_enhancer self) image (enhance_fidelity options)
  else Ok image.

(** The body of the [try] block of [process_image]. *)
Definition process_body (E : Env) (self : PhotoProcessor) (input_path output_path : string)
           (options : ProcessingOptions) : M ProcessingResult :=
  tell (LoadImage input_path);;
  image ← lift (match imread E input_path with
                | Some image => Ok image
                | None => Raise (Py.ValueError
                                   (String.append "Could not load image: " input_path))
                end);
  image ← (if restore_runs self options
           then
             tell RestoreFace;;
             lift (FaceEnhancement.enhance (face_enhancer self) image (enhance_fidelity options))
           else mret image);
  tell DetectFace;;
  face_rect ← lift (FaceDetection.detect_face (K E) (face_detector self) image);
  match face_rect with
  | None =>
      stats_incr "no_face";;
      mret no_face_result
  | Some face_rect => after_detection E self image face_rect output_path options
  end.

Definition process_image (E : Env) (self : PhotoProcessor) (input_path output_path : string)
           (options : option ProcessingOptions) : M ProcessingResult :=
  stats_incr "total";;
  let options := default default_options options in
  try_except (process_body E self input_path output_path options)
    (fun e =>
       stats_incr "errors";;
       mret (with_error (new_result false) (Py.str e))).

(** A value of the dict [get_stats] returns: the counters are ints, the
    rate is a float. *)
Inductive number : Type :=
| Int (n : Z)
| Float (x : float).

Definition stats_item (st : gmap string Z) (key : string) : result Z :=
  match st !! key with
  | Some n => Ok n
  | None => Raise (Py.KeyError key)
  end.

Definition get_stats (self_stats : gmap string Z) : result (gmap string number) :=
  let stats : gmap string number := Int <$> self_stats in
  total ← stats_item self_stats "total";
  if 0 <? total
  then
    success ← stats_item self_stats "success";
    total ← stats_item self_stats "total";
    rate ← Py.truediv success total;
    Ok (<["success_rate" := Float rate]> stats)
  else Ok (<["success_rate" := Float 0]> stats).

Definition reset_stats (s : Machine) : Machine :=
  mk_machine initial_stats (fs s) (trace s).

(** A fresh processor's state: zeroed counters, nothing written or
    called yet. *)
Definition fresh_machine : Machine := mk_machine initial_stats ∅ [].

(** *** Notions the properties of [process_image] are stated with *)

(** The image that reaches the first detection: the output of step 2.
    ([FaceEnhancer.enhance] has no failing case, see
    [restore_stage_restored].) *)
Definition restored (self : PhotoProcessor) (options : ProcessingOptions)
           (image : ndarray) : ndarray :=
  match restore_stage self options image with
  | Ok out => out
  | Raise _ => image
  end.

Definition restore_events (self : PhotoProcessor) (options : ProcessingOptions)
  : list event :=
  if restore_runs self options then [RestoreFace] else [].

(** The state in which the first detection returns. *)
Definition at_detection (s : Machine) (input_path : string) (self : PhotoProcessor)
           (options : ProcessingOptions) : Machine :=
  mk_machine (stats s) (fs s)
             (trace s ++ LoadImage input_path :: restore_events self options ++ [DetectFace]).

(** How the [try] block of one call ends: with the success return, with
    the no-face return, or in the [except] clause. *)
Inductive outcome : Type := Succeeded | NoFace | Failed.

#[global] Instance outcome_eq_dec : EqDecision outcome.
Proof. solve_decision. Defined.

Definition outcome_of_body (x : result ProcessingResult) : outcome :=
  match x with
  | Ok r => if success r then Succeeded else NoFace
  | Raise _ => Failed
  end.

Definition counter_of (o : outcome) : string :=
  match o with
  | Succeeded => "success"
  | NoFace => "no_face"
  | Failed => "errors"
  end.

(** One call of [process_image], with the environment it runs in. *)
Record call : Type := mk_call {
  call_env : Env;
  call_self : PhotoProcessor;
  call_input : string;
  call_output : string;
  call_options : option ProcessingOptions
}.

Definition do_call (c : call) : M ProcessingResult :=
  process_image (call_env c) (call_self c) (call_input c) (call_output c) (call_options c).

Definition call_outcome (c : call) (s : Machine) : outcome :=
  outcome_of_body
    (process_body (call_env c) (call_self c) (call_input c) (call_output c)
       (default default_options (call_options c))
       (stats_incr "total" s).2).1.

(** The state after a sequence of calls, and how each of them ended. *)
Fixpoint run_calls (cs : list call) (s : Machine) : Machine :=
  match cs with
  | [] => s
  | c :: cs' => run_calls cs' (do_call c s).2
  end.

Fixpoint outcomes (cs : list call) (s : Machine) : list outcome :=
  match cs with
  | [] => []
  | c :: cs' => call_outcome c s :: outcomes cs' (do_call c s).2
  end.

Definition tally (o : outcome) (os : list outcome) : Z :=
  Z.of_nat (length (filter (fun x => x = o) os)).

Definition hit (o x : outcome) : Z := if decide (x = o) then 1 else 0.

(** [extends s s']: the log of [s'] continues the log of [s]. *)
Definition extends (s s' : Machine) : Prop :=
  exists more, trace s' = trace s ++ more.

(** [yields m P]: [m] leaves the counters alone and only adds to the
    log, and a value it returns satisfies [P]. *)
Definition yields {A} (m : M A) (P : A -> Prop) : Prop :=
  forall s, stats (m s).2 = stats s /\ extends s (m s).2
            /\ forall a, (m s).1 = Ok a -> P a.

(** [ends_with m Q]: [m] only adds to the log; when it returns, the
    value and the counters before and after satisfy [Q]; when it raises,
    the counters are as before. *)
Definition ends_with {A} (m : M A) (Q : A -> gmap string Z -> gmap string Z -> Prop)
  : Prop :=
  forall s, extends s (m s).2
            /\ match (m s).1 with
               | Ok a => Q a (stats s) (stats (m s).2)
               | Raise _ => stats (m s).2 = stats s
               end.

(** A success return reports the position it was given. *)
Definition reports (pos : gmap string Z) (r : ProcessingResult) : Prop :=
  success r = true /\ face_detected r = true /\ face_count r = 1
  /\ face_position r = Some pos.

(** [bumped key before after]: [after] is [before] with the counter
    [key] one higher. *)
Definition bumped (key : string) (before after : gmap string Z) : Prop :=
  exists n, before !! key = Some n /\ after = <[key := n + 1]> before.

(** The quality after [i] reductions, and the file written at a
    quality. *)
Definition quality_at (i : nat) : Z := 90 - 3 * Z.of_nat i.

Definition jpeg_file (E : Env) (jpeg_image : ndarray) (q : Z) : file :=
  mk_file (Cv2.jpeg_size (K E) jpeg_image q) (Some q).

(** The qualities the size-bounded search writes when it stops after
    [n] reductions: 90, 87, ..., [90 - 3 n]. *)
Definition qualities (n : nat) : list Z := quality_at <$> seq 0 (S n).

End Processor.

(* ===================================================================== *)
(** ** The constructors *)
(* ===================================================================== *)

Module Loading.
Import FaceEnhancement.












End Loading.

(* ===================================================================== *)
(** ** Python's [str], where its characters matter *)
(* ===================================================================== *)

Module Str.

(** A [str] as the sequence of its code points. *)
Abbreviation str := (list N).

(** [c.isspace()] for one character: the code points Unicode classes
    as white space, plus the four information separators. *)
Definition isspace (c : N) : bool :=
  ((9 <=? c) && (c <=? 13) || (28 <=? c) && (c <=? 32)
   || (c =? 133) || (c =? 160) || (c =? 5760)
   || (8192 <=? c) && (c <=? 8202)
   || (c =? 8232) || (c =? 8233) || (c =? 8239) || (c =? 8287) || (c =? 12288))%N.

Definition comma : N := 44.
Definition star : N := 42.

(** A literal of the sources. *)
Definition of_string (s : string) : str := Ascii.N_of_ascii <$> String.list_ascii_of_string s.

Fixpoint lstrip (s : str) : str :=
  match s with
  | c :: rest => if isspace c then lstrip rest else s
  | [] => []
  end.

Definition rstrip (s : str) : str := reverse (lstrip (reverse s)).

(** [s.strip()] *)
Definition strip (s : str) : str := rstrip (lstrip s).

(** [s.split(sep)] for a separator of one character. *)
Fixpoint split (sep : N) (s : str) : list str :=
  match s with
  | [] => [[]]
  | c :: rest =>
      if (c =? sep)%N then [] :: split sep rest
      else match split sep rest with
           | piece :: pieces => (c :: piece) :: pieces
           | [] => [[c]]
           end
  end.

(** [sep.join(parts)] *)
Fixpoint join (sep : str) (parts : list str) : str :=
  match parts with
  | [] => []
  | [p] => p
  | p :: rest => p ++ sep ++ join sep rest
  end.

End Str.

(* ===================================================================== *)
(** ** core/config.py *)
(* ===================================================================== *)

Module Config.
Import Loading.

(** The fields of [Settings] that the methods below read. *)
Record Settings : Type := {
  device : string;
  models_dir : string;
  predictor_path : option string;
  codeformer_path : option string;
  cors_origins : Str.str
}.

(** [cors_origins_list] *)
Definition cors_origins_list (self : Settings) : list Str.str :=
  if decide (cors_origins self = [Str.star]) then [[Str.star]]
  else Str.strip <$> Str.split Str.comma (cors_origins self).




End Config.

(* ===================================================================== *)
(** ** api/dependencies.py *)
(* ===================================================================== *)

Module Dependencies.
Import Loading.


(** [l[-n:]] *)
Definition last_n {A} (n : Z) (l : list A) : list A :=
  drop (Z.to_nat (Py.slice_index (Z.of_nat (length l)) (- n))) l.

(** [record_processing_time], on the value of [_processing_times]. *)
Definition record_processing_time (_processing_times : list float) (ms : float)
  : list float :=
  let _processing_times := _processing_times ++ [ms] in
  if 100 <? Z.of_nat (length _processing_times)
  then last_n 100 _processing_times
  else _processing_times.

End Dependencies.

(* ===================================================================== *)
(** ** Notions for the files a call writes *)
(* ===================================================================== *)

Module Files.
Import Processor.







End Files.

(* ===================================================================== *)
(** ** A small concrete environment

    Stand-ins for the libraries and the models, simple enough to be
    evaluated.  They serve to run the definitions above on concrete
    inputs; the theorems below quantify over every kernel, every
    detector and every model. *)
(* ===================================================================== *)

Module Sample.
Import Processor.

Definition sq (n : Z) : Z := n * n.

(** The filled ellipse by its equation, inside its bounding box. *)
Definition ellipse_fill (cx cy rx ry x y : Z) : bool :=
  (Z.abs (x - cx) <=? rx) && (Z.abs (y - cy) <=? ry)
  && (sq (x - cx) * sq ry + sq (y - cy) * sq rx <=? sq rx * sq ry).

(** A feathering filter: the mean over the [k] by [k] window, cut at the
    border of the plane. *)
Definition box_mean (p : ndarray) (k sigma y x : Z) : Z :=
  let r := k / 2 in
  let y0 := Z.max 0 (y - r) in
  let y1 := Z.min (rows p - 1) (y + r) in
  let x0 := Z.max 0 (x - r) in
  let x1 := Z.min (cols p - 1) (x + r) in
  let nh := Z.to_nat (y1 - y0 + 1) in
  let nw := Z.to_nat (x1 - x0 + 1) in
  Np.sum_range (fun j => Np.sum_range (fun i => px p j i 0) x0 nw) y0 nh
  / (Z.of_nat nh * Z.of_nat nw).

(** Nearest-neighbour sampling in place of the Lanczos kernel. *)
Definition nearest (a : ndarray) (w h y x c : Z) : Z :=
  px a (y * rows a / h) (x * cols a / w) c.

Definition kernels : Cv2.kernels := {|
  Cv2.gray_of b g r := (b + g + r) / 3;
  Cv2.lab_of_bgr t := t;
  Cv2.bgr_of_lab t := t;
  Cv2.clahe _ _ p y x := px p y x 0;
  Cv2.add_weighted a _ _ _ _ := a;
  Cv2.fpow x _ := x;
  Cv2.bilateral a _ _ _ := px a;
  Cv2.filter2D_k a _ := px a;
  Cv2.pil_contrast a _ := px a;
  Cv2.pil_color a _ := px a;
  Cv2.lanczos4 := nearest;
  Cv2.ellipse_fill := ellipse_fill;
  Cv2.gaussian := box_mean;
  Cv2.arctan2 _ _ := 0%float;
  Cv2.degrees x := x;
  Cv2.warp_rotate a _ _ y x c := if c <? 3 then Z.min 255 (px a y x c + 60) else px a y x c;
  Cv2.png_size a := rows a * cols a * 4;
  Cv2.jpeg_size a q := rows a * cols a * q / 30
|}.

(** An image of one colour. *)
Definition solid (h w : Z) (d : option Z) (v : Z) : ndarray :=
  mk_ndarray h w d (fun _ _ _ => v).

Definition env : Env := {|
  K := kernels;
  imread path :=
    if String.eqb path "face.jpg" then Some (solid 40 40 (Some 3) 150)
    else if String.eqb path "blank.jpg" then Some (solid 40 40 (Some 3) 0)
    else None;
  dirname _ := "out";
  stem _ := "portrait";
  join a b := String.append a (String.append "/" b)
|}.

Definition face_box : rectangle := mk_rectangle 10 10 29 29.
Definition turned_box : rectangle := mk_rectangle 12 12 27 27.

(** A detector that sees one face on an image whose first pixel is
    bright, two faces (the smaller one first) on a very bright one, and
    none on a dark one. *)
Definition detector (gray : ndarray) : result (list rectangle) :=
  if 200 <? px gray 0 0 0 then Ok [mk_rectangle 14 14 25 25; turned_box]
  else if 100 <? px gray 0 0 0 then Ok [face_box]
  else Ok [].

Definition predictor (gray : ndarray) (r : rectangle)
  : result Dlib.full_object_detection :=
  Ok (repeat (20, 20) 68).

Definition detector_object : FaceDetection.FaceDetector := {|
  FaceDetection.face_detector := detector;
  FaceDetection.predictor := Some predictor
|}.

Definition matting (rgb : ndarray) : result ndarray :=
  Ok (mk_ndarray (rows rgb) (cols rgb) (Some 4)
        (fun y x c => if c =? 3 then 255 else px rgb y x c)).

(** A restoration helper that finds no face. *)
Definition blind_helper : FaceEnhancement.FaceRestoreHelper := {|
  FaceEnhancement.helper_state := list ndarray;
  FaceEnhancement.helper_now := [];
  FaceEnhancement.clean_all _ := Ok [];
  FaceEnhancement.read_image _ hs := Ok hs;
  FaceEnhancement.get_face_landmarks_5 hs := Ok hs;
  FaceEnhancement.align_warp_face hs := Ok hs;
  FaceEnhancement.cropped_faces _ := [];
  FaceEnhancement.add_restored_face f hs := Ok (hs ++ [f]);
  FaceEnhancement.get_inverse_affine hs := Ok hs;
  FaceEnhancement.paste_faces_to_input_image img _ := Ok img
|}.

(** A restoration helper whose landmark search fails. *)
Definition failing_helper : FaceEnhancement.FaceRestoreHelper := {|
  FaceEnhancement.helper_state := list ndarray;
  FaceEnhancement.helper_now := [];
  FaceEnhancement.clean_all _ := Ok [];
  FaceEnhancement.read_image _ hs := Ok hs;
  FaceEnhancement.get_face_landmarks_5 _ := Raise (Py.Exn "RuntimeError" "out of memory");
  FaceEnhancement.align_warp_face hs := Ok hs;
  FaceEnhancement.cropped_faces hs := hs;
  FaceEnhancement.add_restored_face f hs := Ok (hs ++ [f]);
  FaceEnhancement.get_inverse_affine hs := Ok hs;
  FaceEnhancement.paste_faces_to_input_image img _ := Ok img
|}.

Definition net (face : ndarray) (w : float) : result ndarray := Ok face.

Definition enhancer_with (H : FaceEnhancement.FaceRestoreHelper)
  : FaceEnhancement.FaceEnhancer := {|
  FaceEnhancement.codeformer_net := Some net;
  FaceEnhancement.face_helper := Some H
|}.

Definition no_enhancer : FaceEnhancement.FaceEnhancer := {|
  FaceEnhancement.codeformer_net := None;
  FaceEnhancement.face_helper := None
|}.

Definition processor : PhotoProcessor := {|
  background_remover := {| Background.remove := matting |};
  face_detector := detector_object;
  face_enhancer := enhancer_with blind_helper
|}.


(** The default options with a budget of 0 kilobytes. *)
Definition unbounded_options : ProcessingOptions :=
  mk_options 648 648 (240, 240, 240) 0.3 true true 0.7 true (Some 0).

End Sample.

(* ===================================================================== *)
(** ** A small concrete installation *)
(* ===================================================================== *)

Module SampleSetup.
Import Loading.



(** The default settings, and the same with a landmark model named
    explicitly at a place where there is none. *)
Definition settings : Config.Settings := {|
  Config.device := "auto";
  Config.models_dir := "/app/models";
  Config.predictor_path := None;
  Config.codeformer_path := None;
  Config.cors_origins := Str.of_string "https://a.example, https://b.example"
|}.


End SampleSetup.

(* ===================================================================== *)
(** ** Proof automation *)
(* ===================================================================== *)

(** Replace an array of known shape by its constructor form. *)
Ltac shape_of a H := destruct a as [? ? ? ?]; destruct H as (? & ? & ?); simpl in *; subst.

(** Evaluate the shape tests of the OpenCV wrappers on an array whose
    height and width are known to be positive. *)
Ltac crunch Hh Hw :=
  repeat (simpl; rewrite ?Z.eqb_refl, ?Hh, ?Hw; simpl).

(* ===================================================================== *)
(** * Properties *)
(* ===================================================================== *)

Import Processor.

Section RestorationStage.
Import FaceEnhancement.

Lemma enhance_total (self : FaceEnhancer) (image : ndarray) (w : float) :
  exists out, enhance self image w = Ok out.
Proof.
  unfold enhance.
  destruct (codeformer_net self) as [net|]; [|eauto].
  destruct (face_helper self) as [H|]; [|eauto].
  destruct (enhance_body net H image w); eauto.
Qed.

Lemma enhance_unavailable (self : FaceEnhancer) (image : ndarray) (w : float) :
  is_available self = false -> enhance self image w = Ok image.
Proof.
  unfold is_available, enhance.
  destruct (codeformer_net self), (face_helper self); congruence.
Qed.

Lemma enhance_body_no_faces net (H : FaceRestoreHelper) image w img_rgb hs :
  detect_phase H image = Ok (img_rgb, hs) ->
  cropped_faces H hs = [] ->
  enhance_body net H image w = Ok image.
Proof.
  intros Hd Hc. unfold enhance_body. rewrite Hd. simpl. rewrite Hc. reflexivity.
Qed.

(** C6.  The restoration stage never aborts the pipeline.
    [FaceEnhancer.enhance] returns an image on every input and with
    every model and helper; it returns its argument unchanged when the
    capability is not available, when the helper's own detector finds no
    face, and when anything inside the [try] block raises.  Step 2 of
    [process_image] therefore always hands an image to the detection,
    and hands over the loaded image itself when it does not run. *)
Theorem restoration_never_aborts (self : FaceEnhancer) (image : ndarray) (w : float) :
  (exists out, enhance self image w = Ok out)
  /\ (is_available self = false -> enhance self image w = Ok image)
  /\ (forall net H, codeformer_net self = Some net -> face_helper self = Some H ->
        (forall img_rgb hs, detect_phase H image = Ok (img_rgb, hs) ->
           cropped_faces H hs = [] -> enhance self image w = Ok image)
        /\ (forall e, enhance_body net H image w = Raise e -> enhance self image w = Ok image))
  /\ (forall (p : PhotoProcessor) (options : ProcessingOptions),
        face_enhancer p = self ->
        (exists out, restore_stage p options image = Ok out)
        /\ (restore_runs p options = false -> restore_stage p options image = Ok image)).
Proof.
  split; [apply enhance_total|]. split; [apply enhance_unavailable|]. split.
  - intros net H Hn Hh. unfold enhance. rewrite Hn, Hh. split.
    + intros img_rgb hs Hd Hc. by rewrite (enhance_body_no_faces net H image w img_rgb hs).
    + intros e He. by rewrite He.
  - intros p options <-. unfold restore_stage. split.
    + destruct (restore_runs p options); [apply enhance_total | by exists image].
    + by intros ->.
Qed.

End RestorationStage.

Section PrimaryFace.
Import FaceDetection.

Lemma head_insert_by_area r l :
  head (insert_by_area r l) =
  match head l with
  | None => Some r
  | Some r' => if area r' <=? area r then Some r else Some r'
  end.
Proof. destruct l as [|r' l]; simpl; [done|]. by destruct (area r' <=? area r). Qed.

Lemma head_sorted_by_area_desc faces :
  head (sorted_by_area_desc faces) = primary_face faces.
Proof.
  induction faces as [|r rest IH]; [done|].
  simpl. rewrite head_insert_by_area. fold (sorted_by_area_desc rest). by rewrite IH.
Qed.

Lemma primary_face_none faces : primary_face faces = None -> faces = [].
Proof.
  destruct faces as [|r rest]; [done|]. simpl.
  destruct (primary_face rest) as [r'|]; [|done]. by destruct (area r' <=? area r).
Qed.

Lemma primary_face_is_first_largest faces r :
  primary_face faces = Some r ->
  exists before after,
    faces = before ++ r :: after
    /\ (forall r', r' ∈ before -> area r' < area r)
    /\ (forall r', r' ∈ after -> area r' <= area r).
Proof.
  revert r. induction faces as [|x rest IH]; intros r Hr; [done|].
  simpl in Hr. destruct (primary_face rest) as [r'|] eqn:Hrest.
  - destruct (IH r' eq_refl) as (before & after & -> & Hb & Ha).
    destruct (area r' <=? area x) eqn:Hle; injection Hr as <-.
    + exists [], (before ++ r' :: after). split; [done|]. split.
      * intros r0 H0. by apply elem_of_nil in H0.
      * intros r0 H0. apply elem_of_app in H0 as [H0|H0].
        -- specialize (Hb r0 H0). lia.
        -- apply elem_of_cons in H0 as [->|H0]; [lia|]. specialize (Ha r0 H0). lia.
    + exists (x :: before), after. split; [done|]. split; [|done].
      intros r0 H0. apply elem_of_cons in H0 as [->|H0]; [lia|]. by apply Hb.
  - injection Hr as <-. apply primary_face_none in Hrest as ->.
    exists [], []. split; [done|]. split; intros r0 H0; by apply elem_of_nil in H0.
Qed.

(** X1.  The face [detect_face] returns is the primary face of the design:
    none when the detector finds none, otherwise a face of greatest
    area, with only strictly smaller faces found before it. *)
Theorem detect_face_returns_primary_face K (self : FaceDetector) image gray faces :
  to_gray K image = Ok gray ->
  face_detector self gray = Ok faces ->
  detect_face K self image = Ok (primary_face faces)
  /\ (faces = [] -> primary_face faces = None)
  /\ (forall r, primary_face faces = Some r ->
        exists before after,
          faces = before ++ r :: after
          /\ (forall r', r' ∈ before -> area r' < area r)
          /\ (forall r', r' ∈ after -> area r' <= area r)).
Proof.
  intros Hg Hf. split; [|split].
  - unfold detect_face. rewrite Hg. simpl. rewrite Hf. simpl.
    destruct faces as [|r [|r2 rest]]; [done|done|].
    destruct (Z.of_nat (length (r :: r2 :: rest)) =? 0) eqn:E0;
      [apply Z.eqb_eq in E0; cbn [length] in E0; lia|].
    destruct (1 <? Z.of_nat (length (r :: r2 :: rest))) eqn:E1;
      [|apply Z.ltb_ge in E1; cbn [length] in E1; lia].
    pose proof (head_sorted_by_area_desc (r :: r2 :: rest)) as Hh.
    destruct (sorted_by_area_desc (r :: r2 :: rest)) as [|h t] eqn:Hs.
    + symmetry in Hh. by apply primary_face_none in Hh.
    + by rewrite <- Hh.
  - by intros ->.
  - apply primary_face_is_first_largest.
Qed.

(** Witness: the sample detector reports a small face, then a larger
    one. *)
Lemma largest_of_two_faces :
  detect_face Sample.kernels Sample.detector_object (Sample.solid 40 40 (Some 3) 230)
  = Ok (Some Sample.turned_box).
Proof.
  destruct (detect_face_returns_primary_face Sample.kernels Sample.detector_object
              (Sample.solid 40 40 (Some 3) 230)
              (mk_ndarray 40 40 None (fun _ _ _ => 230))
              [mk_rectangle 14 14 25 25; Sample.turned_box])
    as (Hrun & _); [reflexivity | reflexivity |].
  exact Hrun.
Defined.
End PrimaryFace.

Section MachineMonad.

Lemma bind_ok {A B} (m : M A) (k : A -> M B) s a s' :
  m s = (Ok a, s') -> (m ≫= k) s = k a s'.
Proof. intros H. unfold mbind, M_bind. by rewrite H. Qed.

Lemma bind_raise {A B} (m : M A) (k : A -> M B) s e s' :
  m s = (Raise e, s') -> (m ≫= k) s = (Raise e, s').
Proof. intros H. unfold mbind, M_bind. by rewrite H. Qed.

Lemma stats_incr_ok key s n :
  stats s !! key = Some n ->
  stats_incr key s = (Ok tt, mk_machine (<[key := n + 1]> (stats s)) (fs s) (trace s)).
Proof. intros H. unfold stats_incr. by rewrite H. Qed.

End MachineMonad.

Lemma restore_stage_restored self options image :
  restore_stage self options image = Ok (restored self options image).
Proof.
  unfold restored. unfold restore_stage.
  destruct (restore_runs self options); [|done].
  by destruct (enhance_total (face_enhancer self) image (enhance_fidelity options)) as [out ->].
Qed.

Lemma process_body_loaded E self input_path output_path options s image :
  imread E input_path = Some image ->
  process_body E self input_path output_path options s =
  match FaceDetection.detect_face (K E) (face_detector self) (restored self options image) with
  | Ok None =>
      (stats_incr "no_face";; mret no_face_result) (at_detection s input_path self options)
  | Ok (Some face_rect) =>
      after_detection E self (restored self options image) face_rect output_path options
        (at_detection s input_path self options)
  | Raise e => (Raise e, at_detection s input_path self options)
  end.
Proof.
  intros Hload.
  pose proof (restore_stage_restored self options image) as Hr.
  set (img' := restored self options image) in *. clearbody img'.
  unfold restore_stage in Hr. unfold at_detection, restore_events, process_body.
  unfold mbind at 1. unfold M_bind at 1. simpl.
  unfold mbind at 1. unfold M_bind at 1. unfold lift at 1. rewrite Hload.
  destruct (restore_runs self options).
  - unfold mbind, M_bind, tell, lift. simpl. rewrite Hr. simpl.
    rewrite <- !app_assoc. simpl.
    destruct (FaceDetection.detect_face _ _ _) as [[r|]|e]; reflexivity.
  - injection Hr as ->.
    unfold mbind, M_bind, tell, lift, mret, M_ret. simpl.
    rewrite <- !app_assoc. simpl.
    destruct (FaceDetection.detect_face _ _ _) as [[r|]|e]; reflexivity.
Qed.

Lemma process_body_unreadable E self input_path output_path options s :
  imread E input_path = None ->
  process_body E self input_path output_path options s =
  (Raise (Py.ValueError (String.append "Could not load image: " input_path)),
   mk_machine (stats s) (fs s) (trace s ++ [LoadImage input_path])).
Proof.
  intros Hload. unfold process_body.
  unfold mbind at 1. unfold M_bind at 1. simpl.
  unfold mbind at 1. unfold M_bind at 1. unfold lift at 1. by rewrite Hload.
Qed.

(** C8.  A call whose source image cannot be loaded ([cv2.imread]
    returns [None]) returns an unsuccessful result carrying the load
    error, runs no stage after the load and writes no file; the total and
    the error counters go up by one, the no-face and the success counters
    stay as they were. *)
Theorem load_failure_counts_as_error E self input_path output_path options s t e :
  imread E input_path = None ->
  stats s !! "total" = Some t ->
  stats s !! "errors" = Some e ->
  let out := process_image E self input_path output_path options s in
  out.1 = Ok (with_error (new_result false)
                (String.append "Could not load image: " input_path))
  /\ success (with_error (new_result false)
                (String.append "Could not load image: " input_path)) = false
  /\ trace out.2 = trace s ++ [LoadImage input_path]
  /\ fs out.2 = fs s
  /\ stats out.2 !! "total" = Some (t + 1)
  /\ stats out.2 !! "errors" = Some (e + 1)
  /\ stats out.2 !! "no_face" = stats s !! "no_face"
  /\ stats out.2 !! "success" = stats s !! "success".
Proof.
  intros Hload Ht He out. subst out. unfold process_image.
  rewrite (bind_ok _ _ _ _ _ (stats_incr_ok "total" s t Ht)).
  unfold try_except. rewrite process_body_unreadable by done.
  erewrite bind_ok; last first.
  { apply stats_incr_ok. simpl. rewrite lookup_insert_ne by done. exact He. }
  simpl. repeat split; try done.
  - rewrite lookup_insert_ne by done. by rewrite lookup_insert_eq.
  - by rewrite lookup_insert_eq.
  - by rewrite !lookup_insert_ne by done.
  - by rewrite !lookup_insert_ne by done.
Qed.

(** C1.  When the detector finds no face on the (possibly restored)
    image, [process_image] returns the unsuccessful result with
    [face_detected = False] and error code "no_face_detected"; the
    no-face counter and the total counter go up by exactly one, the
    success and error counters are unchanged; no file is written, and the
    log of the call ends with the detection: no segmentation, crop,
    enhancement, mask, resize or encoding. *)
Theorem no_face_is_terminal E self input_path output_path options s image t n :
  let opts := default default_options options in
  imread E input_path = Some image ->
  FaceDetection.detect_face (K E) (face_detector self) (restored self opts image) = Ok None ->
  stats s !! "total" = Some t ->
  stats s !! "no_face" = Some n ->
  let out := process_image E self input_path output_path options s in
  out.1 = Ok no_face_result
  /\ success no_face_result = false
  /\ face_detected no_face_result = false
  /\ error no_face_result = Some "no_face_detected"
  /\ stats out.2 !! "no_face" = Some (n + 1)
  /\ stats out.2 !! "total" = Some (t + 1)
  /\ stats out.2 !! "success" = stats s !! "success"
  /\ stats out.2 !! "errors" = stats s !! "errors"
  /\ fs out.2 = fs s
  /\ trace out.2 = trace s ++ LoadImage input_path :: restore_events self opts ++ [DetectFace].
Proof.
  intros opts Hload Hdet Ht Hn out. subst out. unfold process_image.
  rewrite (bind_ok _ _ _ _ _ (stats_incr_ok "total" s t Ht)).
  unfold try_except. fold opts.
  rewrite (process_body_loaded _ _ _ _ _ _ image) by done.
  simpl. rewrite Hdet.
  erewrite bind_ok; last first.
  { apply stats_incr_ok. simpl. rewrite lookup_insert_ne by done. exact Hn. }
  simpl. repeat split; try done.
  - by rewrite lookup_insert_eq.
  - rewrite lookup_insert_ne by done. by rewrite lookup_insert_eq.
  - by rewrite !lookup_insert_ne by done.
  - by rewrite !lookup_insert_ne by done.
Qed.

Section StatsLogic.

Lemma extends_refl s : extends s s.
Proof. exists []. by rewrite app_nil_r. Qed.

Lemma extends_trans s1 s2 s3 : extends s1 s2 -> extends s2 s3 -> extends s1 s3.
Proof. intros [m1 H1] [m2 H2]. exists (m1 ++ m2). by rewrite H2, H1, app_assoc. Qed.

Lemma yields_weaken {A} (m : M A) (P Q : A -> Prop) :
  yields m P -> (forall a, P a -> Q a) -> yields m Q.
Proof. intros H HPQ s. destruct (H s) as (H1 & H2 & H3). repeat split; eauto. Qed.

Lemma yields_true {A} (m : M A) (P : A -> Prop) : yields m P -> yields m (fun _ => True).
Proof. intros H. eapply yields_weaken; [exact H|done]. Qed.

Lemma yields_ret {A} (a : A) (P : A -> Prop) : P a -> yields (mret a) P.
Proof.
  intros H s. repeat split; [apply extends_refl|]. intros a' [= <-]. done.
Qed.

Lemma yields_lift {A} (r : result A) : yields (lift r) (fun a => r = Ok a).
Proof. intros s. repeat split; [apply extends_refl|]. intros a Ha. exact Ha. Qed.

Lemma yields_tell ev : yields (tell ev) (fun _ => True).
Proof. intros s. repeat split. by exists [ev]. Qed.

Lemma yields_imwrite path f ev : yields (imwrite path f ev) (fun _ => True).
Proof. intros s. repeat split. by exists [ev]. Qed.

Lemma yields_getsize path : yields (getsize path) (fun _ => True).
Proof.
  intros s. unfold getsize. destruct (fs s !! path); repeat split; apply extends_refl.
Qed.

Lemma yields_bind {A B} (m : M A) (k : A -> M B) (P : A -> Prop) (Q : B -> Prop) :
  yields m P -> (forall a, P a -> yields (k a) Q) -> yields (m ≫= k) Q.
Proof.
  intros Hm Hk s. destruct (Hm s) as (H1 & H2 & H3).
  unfold mbind, M_bind. destruct (m s) as [[a|e] s'] eqn:Hms; simpl in *.
  - destruct (Hk a (H3 a eq_refl) s') as (H4 & H5 & H6).
    repeat split; [congruence|by eapply extends_trans|done].
  - repeat split; [done..|]. intros a [=].
Qed.

Lemma yields_quality_loop E jpg_path jpeg_image max_size_bytes quality :
  yields (quality_loop E jpg_path jpeg_image max_size_bytes quality) (fun _ => True).
Proof.
  remember (Z.to_nat (quality - 47)) as n eqn:Hn.
  revert quality Hn. induction (lt_wf n) as [n _ IH]. intros quality Hn s.
  rewrite quality_loop_equation_1.
  destruct (yields_getsize jpg_path s) as (Hg & Hx & _).
  destruct (getsize jpg_path s) as [[size|e] s']; simpl in *; [|done].
  destruct (max_size_bytes <? size); [|done].
  destruct (Z_lt_dec 50 quality) as [Hq|Hq]; [|done].
  simpl.
  match goal with |- context [quality_loop _ _ _ _ _ ?s2] =>
    destruct (IH (Z.to_nat (quality - 3 - 47)) ltac:(lia) (quality - 3) eq_refl s2)
      as (H1 & H2 & _);
    assert (Hx2 : extends s' s2) by by eexists
  end.
  repeat split; [by rewrite H1|].
  eapply extends_trans; [exact Hx|]. eapply extends_trans; [exact Hx2|exact H2].
Qed.

Lemma yields_save_jpeg E jpg_path jpeg_image options :
  yields (save_jpeg E jpg_path jpeg_image options) (fun _ => True).
Proof.
  unfold save_jpeg. destruct (Py.truthy _).
  - eapply yields_bind; [apply yields_imwrite|]. intros _ _. apply yields_quality_loop.
  - apply yields_imwrite.
Qed.

Lemma yields_save_output E image output_path options :
  yields (_save_output E image output_path options) (fun r => success r = true).
Proof.
  unfold _save_output.
  eapply (yields_bind _ _ (fun r => success r = true)).
  { destruct (use_oval_mask options).
    - eapply yields_bind; [apply yields_imwrite|]. intros _ _.
      eapply yields_bind; [apply yields_getsize|]. intros size _.
      by apply yields_ret.
    - by apply yields_ret. }
  intros result Hres.
  eapply yields_bind; [apply yields_lift|]. intros d _.
  eapply (yields_bind _ _ (fun _ => True)).
  { destruct (d =? 4); [eapply yields_true, yields_lift | by apply yields_ret]. }
  intros jpeg_image _.
  eapply yields_bind; [apply yields_save_jpeg|]. intros _ _.
  destruct (negb (use_oval_mask options)).
  - eapply yields_bind; [apply yields_getsize|]. intros size _. by apply yields_ret.
  - by apply yields_ret.
Qed.

Lemma yields_align_and_redetect E self image image_no_bg face_rect :
  yields (align_and_redetect E self image image_no_bg face_rect) (fun _ => True).
Proof.
  unfold align_and_redetect. destruct (FaceDetection.has_predictor _); [|by apply yields_ret].
  eapply yields_bind; [apply yields_tell|]. intros _ _.
  eapply yields_bind; [apply yields_lift|]. intros [lm|] _; [|by apply yields_ret].
  eapply yields_bind; [apply yields_tell|]. intros _ _.
  eapply yields_bind; [apply yields_lift|]. intros rotated _.
  eapply yields_bind; [apply yields_tell|]. intros _ _.
  eapply yields_bind; [apply yields_lift|]. intros [r|] _; by apply yields_ret.
Qed.

Lemma ends_with_bind {A B} (m : M A) (k : A -> M B) (P : A -> Prop) Q :
  yields m P -> (forall a, P a -> ends_with (k a) Q) -> ends_with (m ≫= k) Q.
Proof.
  intros Hm Hk s. destruct (Hm s) as (H1 & H2 & H3).
  unfold mbind, M_bind. destruct (m s) as [[a|e] s'] eqn:Hms; simpl in *; [|done].
  destruct (Hk a (H3 a eq_refl) s') as [H4 H5]. rewrite H1 in H5.
  split; [by eapply extends_trans|done].
Qed.

Lemma ends_with_incr {A} key (a : A) :
  ends_with (stats_incr key;; mret a) (fun a' before after => a' = a /\ bumped key before after).
Proof.
  intros s. unfold mbind, M_bind, stats_incr.
  destruct (stats s !! key) as [n|] eqn:Hk; simpl.
  - split; [exists []; simpl; by rewrite app_nil_r|]. split; [done|]. by exists n.
  - split; [apply extends_refl|done].
Qed.

Lemma ends_with_weaken {A} (m : M A) (Q Q' : A -> gmap string Z -> gmap string Z -> Prop) :
  ends_with m Q -> (forall a b c, Q a b c -> Q' a b c) -> ends_with m Q'.
Proof.
  intros H HQ s. destruct (H s) as [H1 H2]. split; [done|].
  destruct ((m s).1); eauto.
Qed.

Lemma after_alignment_counts E image_no_bg face_rect pos output_path options :
  ends_with (after_alignment E image_no_bg face_rect pos output_path options)
            (fun r before after => reports pos r /\ bumped "success" before after).
Proof.
  unfold after_alignment.
  eapply ends_with_bind; [apply yields_lift|]. intros cropped _.
  eapply (ends_with_bind _ _ (fun _ => True)).
  { destruct (enhance_photo options); [|by apply yields_ret].
    eapply yields_bind; [apply yields_tell|]. intros _ _. eapply yields_true, yields_lift. }
  intros enhanced _.
  eapply (ends_with_bind _ _ (fun _ => True)).
  { destruct (use_oval_mask options); [|by apply yields_ret].
    eapply yields_bind; [apply yields_tell|]. intros _ _. eapply yields_true, yields_lift. }
  intros masked _.
  eapply ends_with_bind; [apply yields_tell|]. intros _ _.
  eapply ends_with_bind; [apply yields_lift|]. intros final _.
  eapply ends_with_bind; [apply yields_save_output|]. intros result Hres.
  eapply ends_with_weaken; [apply ends_with_incr|].
  intros r b c [-> Hb]. split; [|done]. by repeat split.
Qed.

Lemma after_detection_counts E self image face_rect output_path options :
  ends_with (after_detection E self image face_rect output_path options)
            (fun r before after =>
               reports (position_of face_rect) r /\ bumped "success" before after).
Proof.
  unfold after_detection.
  eapply ends_with_bind; [apply yields_tell|]. intros _ _.
  eapply ends_with_bind; [apply yields_lift|]. intros image_no_bg _.
  eapply ends_with_bind; [apply yields_align_and_redetect|]. intros [nobg rect] _.
  eapply ends_with_bind; [apply yields_tell|]. intros _ _.
  apply after_alignment_counts.
Qed.

Lemma process_body_counts E self input_path output_path options :
  ends_with (process_body E self input_path output_path options)
            (fun r before after => bumped (counter_of (outcome_of_body (Ok r))) before after).
Proof.
  unfold process_body.
  eapply ends_with_bind; [apply yields_tell|]. intros _ _.
  eapply ends_with_bind; [apply yields_lift|]. intros image _.
  eapply (ends_with_bind _ _ (fun _ => True)).
  { destruct (restore_runs self options); [|by apply yields_ret].
    eapply yields_bind; [apply yields_tell|]. intros _ _. eapply yields_true, yields_lift. }
  intros image' _.
  eapply ends_with_bind; [apply yields_tell|]. intros _ _.
  eapply ends_with_bind; [apply yields_lift|]. intros [face_rect|] _.
  - eapply ends_with_weaken; [apply after_detection_counts|].
    intros r b c [(Hs & _) Hb]. simpl. by rewrite Hs.
  - eapply ends_with_weaken; [apply ends_with_incr|].
    intros r b c [-> Hb]. exact Hb.
Qed.

End StatsLogic.

Section Counters.

Lemma tally_cons o x os : tally o (x :: os) = hit o x + tally o os.
Proof.
  unfold tally, hit. rewrite filter_cons. destruct (decide (x = o)); simpl; lia.
Qed.

Lemma hit_total x : hit Succeeded x + hit NoFace x + hit Failed x = 1.
Proof. by destruct x. Qed.

Lemma bumped_lookup key before after k :
  bumped key before after ->
  after !! k = (if decide (k = key) then (fun n => n + 1) <$> before !! k else before !! k).
Proof.
  intros (n & Hn & ->). destruct (decide (k = key)) as [->|Hne].
  - rewrite lookup_insert_eq, Hn. done.
  - by rewrite lookup_insert_ne.
Qed.

Lemma bumped_grows key before after k n :
  bumped key before after -> before !! k = Some n ->
  exists n', after !! k = Some n' /\ n <= n'.
Proof.
  intros Hb Hk. rewrite (bumped_lookup _ _ _ k Hb), Hk.
  destruct (decide (k = key)); simpl; eexists; split; try done; lia.
Qed.

(** What one call does to the counters, whatever state it starts in. *)
Lemma do_call_counts c s :
  match stats s !! "total" with
  | None => do_call c s = (Raise (Py.KeyError "total"), s)
  | Some t =>
      let s1 := mk_machine (<["total" := t + 1]> (stats s)) (fs s) (trace s) in
      (is_Some (stats s1 !! counter_of (call_outcome c s)) ->
        Py.is_ok (do_call c s).1 = true
        /\ bumped (counter_of (call_outcome c s)) (stats s1) (stats (do_call c s).2))
      /\ (stats (do_call c s).2 = stats s1
          \/ exists key, bumped key (stats s1) (stats (do_call c s).2))
  end.
Proof.
  unfold do_call, call_outcome, process_image.
  destruct (stats s !! "total") as [t|] eqn:Ht.
  - rewrite (bind_ok _ _ _ _ _ (stats_incr_ok "total" s t Ht)).
    rewrite (stats_incr_ok "total" s t Ht). simpl.
    set (s1 := mk_machine _ _ _).
    set (opts := default default_options (call_options c)).
    unfold try_except.
    destruct (process_body_counts (call_env c) (call_self c) (call_input c)
                (call_output c) opts s1) as [_ Hb].
    destruct (process_body _ _ _ _ _ s1) as [[r|e] s'] eqn:Hbody.
    + simpl in *. split; [by intros _|]. right. eauto.
    + simpl in *. split.
      * intros [n Hn]. rewrite <- Hb in Hn.
        rewrite (bind_ok _ _ _ _ _ (stats_incr_ok "errors" s' n Hn)). simpl.
        split; [done|]. exists n. rewrite <- Hb. done.
      * unfold mbind, M_bind, stats_incr.
        destruct (stats s' !! "errors") as [n|] eqn:Hn; simpl.
        -- right. exists "errors", n. rewrite <- Hb. done.
        -- left. done.
  - unfold mbind, M_bind, stats_incr. by rewrite Ht.
Qed.

Lemma do_call_grows c s key n :
  stats s !! key = Some n ->
  exists n', stats (do_call c s).2 !! key = Some n' /\ n <= n'.
Proof.
  intros Hk. pose proof (do_call_counts c s) as H.
  destruct (stats s !! "total") as [t|] eqn:Ht.
  - simpl in H. destruct H as [_ H].
    assert (Hb1 : bumped "total" (stats s) (<["total" := t + 1]> (stats s))) by by exists t.
    destruct (bumped_grows _ _ _ key n Hb1 Hk) as (n1 & Hn1 & Hle1).
    destruct H as [-> | [key' Hb2]].
    + simpl. eauto.
    + simpl in Hb2. destruct (bumped_grows _ _ _ key n1 Hb2 Hn1) as (n2 & Hn2 & Hle2).
      exists n2. split; [done|lia].
  - rewrite H. simpl. exists n. split; [done|lia].
Qed.

Lemma do_call_tallies c s t a b e :
  stats s !! "total" = Some t ->
  stats s !! "success" = Some a ->
  stats s !! "no_face" = Some b ->
  stats s !! "errors" = Some e ->
  let o := call_outcome c s in
  Py.is_ok (do_call c s).1 = true
  /\ stats (do_call c s).2 !! "total" = Some (t + 1)
  /\ stats (do_call c s).2 !! "success" = Some (a + hit Succeeded o)
  /\ stats (do_call c s).2 !! "no_face" = Some (b + hit NoFace o)
  /\ stats (do_call c s).2 !! "errors" = Some (e + hit Failed o).
Proof.
  intros Ht Ha Hb He o. pose proof (do_call_counts c s) as H. rewrite Ht in H.
  simpl in H. destruct H as [H _]. fold o in H.
  destruct H as [Hok Hbump].
  { destruct o; simpl; rewrite lookup_insert_ne by done; eauto. }
  split; [done|].
  rewrite !(bumped_lookup _ _ _ _ Hbump).
  destruct o; simpl; repeat split;
    repeat (first [rewrite lookup_insert_eq | rewrite lookup_insert_ne by done]);
    rewrite ?Ha, ?Hb, ?He; simpl; f_equal; unfold hit; simpl; lia.
Qed.

Lemma run_calls_tallies cs : forall s t a b e,
  stats s !! "total" = Some t ->
  stats s !! "success" = Some a ->
  stats s !! "no_face" = Some b ->
  stats s !! "errors" = Some e ->
  stats (run_calls cs s) !! "total" = Some (t + Z.of_nat (length cs))
  /\ stats (run_calls cs s) !! "success" = Some (a + tally Succeeded (outcomes cs s))
  /\ stats (run_calls cs s) !! "no_face" = Some (b + tally NoFace (outcomes cs s))
  /\ stats (run_calls cs s) !! "errors" = Some (e + tally Failed (outcomes cs s)).
Proof.
  induction cs as [|c cs IH]; intros s t a b e Ht Ha Hb He.
  - simpl. unfold tally. simpl. rewrite !Z.add_0_r. done.
  - destruct (do_call_tallies c s t a b e Ht Ha Hb He) as (_ & Ht' & Ha' & Hb' & He').
    destruct (IH _ _ _ _ _ Ht' Ha' Hb' He') as (IHt & IHa & IHb & IHe).
    cbn [run_calls outcomes length]. rewrite !tally_cons.
    rewrite IHt, IHa, IHb, IHe. repeat split; f_equal; lia.
Qed.

Lemma tallies_total os :
  Z.of_nat (length os) = tally Succeeded os + tally NoFace os + tally Failed os.
Proof.
  induction os as [|x os IH]; [done|].
  rewrite !tally_cons. pose proof (hit_total x). cbn [length]. lia.
Qed.

Lemma outcomes_length cs : forall s, length (outcomes cs s) = length cs.
Proof. induction cs as [|c cs IH]; intros s; simpl; [done|]. by rewrite IH. Qed.

Lemma get_stats_rate st N S :
  st !! "total" = Some N -> st !! "success" = Some S ->
  get_stats st =
  Ok (<["success_rate" :=
          Float (if 0 <? N then PrimFloat.div (Py.float_of_int S) (Py.float_of_int N)
                 else 0%float)]> (Int <$> st)).
Proof.
  intros HN HS. unfold get_stats, stats_item. rewrite HN. simpl.
  destruct (0 <? N) eqn:Hpos; [|done].
  rewrite HS. simpl. unfold Py.truediv.
  destruct (N =? 0) eqn:Hz; [lia|done].
Qed.

(** C9.  After any sequence of [N] calls on a processor whose
    counters were just reset, with [S] calls ending in the success
    return, [F] in the no-face return and [E] in the [except] clause:
    [N = S + F + E], [total = N], [success = S], [no_face = F],
    [errors = E]; [get_stats] returns without raising, its success rate
    being the float quotient [S / N] when [N > 0] and [0.0] when
    [N = 0]; no call lowers a counter; [reset_stats] sets each to 0. *)
Theorem statistics_invariant (cs : list call) (s : Machine) :
  let s0 := reset_stats s in
  let sN := run_calls cs s0 in
  let os := outcomes cs s0 in
  let N := Z.of_nat (length cs) in
  let S := tally Succeeded os in
  let F := tally NoFace os in
  let E := tally Failed os in
  N = S + F + E
  /\ stats sN !! "total" = Some N
  /\ stats sN !! "success" = Some S
  /\ stats sN !! "no_face" = Some F
  /\ stats sN !! "errors" = Some E
  /\ get_stats (stats sN) =
     Ok (<["success_rate" :=
             Float (if 0 <? N then PrimFloat.div (Py.float_of_int S) (Py.float_of_int N)
                    else 0%float)]> (Int <$> stats sN))
  /\ (forall c m key n, stats m !! key = Some n ->
        exists n', stats (do_call c m).2 !! key = Some n' /\ n <= n')
  /\ (forall key, key ∈ ["total"; "success"; "no_face"; "errors"] ->
        stats (reset_stats s) !! key = Some 0).
Proof.
  intros s0 sN os N S F E.
  destruct (run_calls_tallies cs s0 0 0 0 0) as (Ht & Ha & Hb & He); try done.
  rewrite !Z.add_0_l in *. fold sN os N S F E in Ht, Ha, Hb, He.
  split. { subst N S F E os. rewrite <- (outcomes_length cs s0). apply tallies_total. }
  repeat split; try done.
  - by apply get_stats_rate.
  - intros c m key n. apply do_call_grows.
  - intros key Hkey. simpl.
    repeat (apply elem_of_cons in Hkey as [->|Hkey]; [done|]).
    by apply elem_of_nil in Hkey.
Qed.

End Counters.

Section NoEscape.

(** X2.  No exception escapes [process_image] on a processor whose four
    counters exist: every call returns a result. *)
Theorem process_image_returns_a_result (c : call) (s : Machine) t a b e :
  stats s !! "total" = Some t ->
  stats s !! "success" = Some a ->
  stats s !! "no_face" = Some b ->
  stats s !! "errors" = Some e ->
  exists r s', do_call c s = (Ok r, s').
Proof.
  intros Ht Ha Hb He.
  destruct (do_call_tallies c s t a b e Ht Ha Hb He) as (Hok & _).
  destruct (do_call c s) as [[r|ex] s'] eqn:Hrun; [|done].
  by exists r, s'.
Qed.

(** Witness: a call on an unreadable path, on a fresh processor. *)
Lemma unreadable_path_returns_a_result :
  exists r s',
    do_call (mk_call Sample.env Sample.processor "missing.jpg" "portrait.png" None)
            fresh_machine = (Ok r, s').
Proof.
  apply (process_image_returns_a_result _ fresh_machine 0 0 0 0); vm_compute; reflexivity.
Defined.

End NoEscape.

Section Alignment.




End Alignment.

Section Encoding.

Lemma getsize_found path s f :
  fs s !! path = Some f -> getsize path s = (Ok (size_bytes f), s).
Proof. intros H. unfold getsize. by rewrite H. Qed.

Lemma machine_eta s : mk_machine (stats s) (fs s) (trace s) = s.
Proof. by destruct s. Qed.

(** The loop entered after [n] reductions, with the file at quality
    [quality_at n] on disk. *)
Lemma quality_loop_from E jpg_path jpeg_image budget (d : nat) :
  forall (n : nat) (s : Machine),
    (n + d = 14)%nat ->
    fs s !! jpg_path = Some (jpeg_file E jpeg_image (quality_at n)) ->
    exists k : nat,
      (n + k <= 14)%nat
      /\ quality_loop E jpg_path jpeg_image budget (quality_at n) s =
         (Ok tt,
          mk_machine (stats s)
            (<[jpg_path := jpeg_file E jpeg_image (quality_at (n + k))]> (fs s))
            (trace s ++ (ImwriteJpeg jpg_path <$> (quality_at <$> seq (S n) k))))
      /\ (forall i, (n <= i < n + k)%nat ->
            budget < Cv2.jpeg_size (K E) jpeg_image (quality_at i))
      /\ (Cv2.jpeg_size (K E) jpeg_image (quality_at (n + k)) <= budget
          \/ quality_at (n + k) = 48).
Proof.
  induction d as [|d IH]; intros n s Hnd Hfile.
  - (* quality 48: the guard [quality > 50] fails *)
    exists 0%nat. rewrite Nat.add_0_r in *. subst n.
    rewrite quality_loop_equation_1, (getsize_found _ _ _ Hfile). simpl size_bytes.
    split; [lia|]. split; [|split; [intros i Hi; lia|by right]].
    destruct (budget <? _); simpl;
      rewrite insert_id by done; rewrite app_nil_r; by rewrite machine_eta.
  - rewrite quality_loop_equation_1, (getsize_found _ _ _ Hfile). simpl size_bytes.
    destruct (budget <? _) eqn:Hover.
    + destruct (Z_lt_dec 50 (quality_at n)) as [Hq|Hq]; [|unfold quality_at in Hq; lia].
      unfold imwrite_jpeg, imwrite. simpl.
      replace (quality_at n - 3) with (quality_at (S n)) by (unfold quality_at; lia).
      match goal with |- context [quality_loop _ _ _ _ _ ?m] => set (s2 := m) end.
      destruct (IH (S n) s2) as (k & Hk & Hrun & Hall & Hend); [lia| |].
      { unfold s2. simpl. by rewrite lookup_insert_eq. }
      exists (S k). split; [lia|]. rewrite Hrun. unfold s2. simpl.
      replace (n + S k)%nat with (S n + k)%nat by lia.
      split; [|split].
      * rewrite insert_insert_eq. by rewrite <- app_assoc.
      * intros i Hi. destruct (decide (i = n)) as [->|Hne]; [lia|]. apply Hall. lia.
      * exact Hend.
    + exists 0%nat. rewrite Nat.add_0_r. split; [lia|]. split; [|split].
      * simpl. rewrite insert_id by done. rewrite app_nil_r. by rewrite machine_eta.
      * intros i Hi. lia.
      * left. lia.
Qed.

(** C2, as amended.  With a non-zero budget the size-bounded
    encoding terminates for every image and every encoder: it writes the
    qualities 90, 87, ... in turn, each one only because the one before
    was over budget, and stops at [90 - 3 n] for some [n <= 14]; the
    file left on disk is the encoding at that quality, and either it
    fits the budget or the quality is 48, the first value of the
    sequence that is not above 50. *)
Theorem size_bounded_encoding E jpg_path jpeg_image options kb s :
  max_jpeg_size_kb options = Some kb ->
  kb <> 0 ->
  let budget := kb * 1024 in
  let size q := Cv2.jpeg_size (K E) jpeg_image q in
  exists n : nat,
    (n <= 14)%nat
    /\ save_jpeg E jpg_path jpeg_image options s =
       (Ok tt,
        mk_machine (stats s)
          (<[jpg_path := mk_file (size (90 - 3 * Z.of_nat n)) (Some (90 - 3 * Z.of_nat n))]>
             (fs s))
          (trace s ++ (ImwriteJpeg jpg_path <$> qualities n)))
    /\ (forall i, (i < n)%nat -> budget < size (90 - 3 * Z.of_nat i))
    /\ (size (90 - 3 * Z.of_nat n) <= budget \/ 90 - 3 * Z.of_nat n = 48).
Proof.
  intros Hkb Hnz budget size. unfold save_jpeg. rewrite Hkb. simpl.
  destruct (kb =? 0) eqn:Hz; [lia|]. simpl.
  unfold mbind, M_bind, imwrite_jpeg, imwrite. simpl.
  match goal with |- context [quality_loop _ _ _ _ _ ?m] => set (s1 := m) end.
  destruct (quality_loop_from E jpg_path jpeg_image budget 14 0 s1) as (k & Hk & Hrun & Hall & Hend).
  { done. } { unfold s1. simpl. by rewrite lookup_insert_eq. }
  exists k. split; [lia|]. change (quality_at 0) with 90 in Hrun. fold budget.
  rewrite Hrun. unfold s1. simpl. split; [|split].
  - rewrite insert_insert_eq, <- app_assoc. reflexivity.
  - intros i Hi. apply Hall. lia.
  - exact Hend.
Qed.

(** C10.  When [max_jpeg_size_kb] is [None] or [0] the option is
    falsy: the JPEG is written exactly once, at quality 90, and the
    quality search does not run.  A budget of 0 kilobytes is no budget. *)
Theorem no_budget_single_encoding E jpg_path jpeg_image options s :
  max_jpeg_size_kb options = None \/ max_jpeg_size_kb options = Some 0 ->
  Py.truthy (max_jpeg_size_kb options) = false
  /\ save_jpeg E jpg_path jpeg_image options s =
     (Ok tt,
      mk_machine (stats s)
        (<[jpg_path := mk_file (Cv2.jpeg_size (K E) jpeg_image 90) (Some 90)]> (fs s))
        (trace s ++ [ImwriteJpeg jpg_path 90])).
Proof.
  intros [H|H]; unfold save_jpeg; rewrite H; done.
Qed.

(** C2, counterexample.  On a 648 by 648 canvas whose encodings all
    exceed 99 KB the search ends at quality 48: the file on disk neither
    fits the budget nor was written at quality 50. *)
Lemma quality_floor_counterexample :
  let s' := (save_jpeg Sample.env "portrait.jpg" (Sample.solid 648 648 (Some 3) 0)
               default_options fresh_machine).2 in
  exists f, fs s' !! "portrait.jpg" = Some f
            /\ jpeg_quality f = Some 48
            /\ ~ (size_bytes f <= 99 * 1024 \/ jpeg_quality f = Some 50).
Proof.
  eexists. split; [vm_compute; reflexivity|]. split; [reflexivity|].
  simpl. intros [H|H]; [lia|discriminate].
Qed.

End Encoding.

Section Enhancer.
Import PhotoEnhancement.

Lemma auto_exposure_shape K a h w :
  (h <=? 0) = false -> (w <=? 0) = false -> bgr_of_size h w a ->
  exists out, _auto_exposure K a = Ok out /\ bgr_of_size h w out.
Proof.
  intros Hh Hw Ha. shape_of a Ha.
  unfold _auto_exposure, Cv2.cvtColor_BGR2LAB, Cv2.color_source_ok, Np.is_empty, Cv2.has_3_or_4.
  crunch Hh Hw.
  unfold Cv2.clahe_apply, Cv2.addWeighted, Cv2.same_plane_shape, Np.is_empty.
  destruct (Py.fgt _ _); crunch Hh Hw.
  - destruct (Py.fgt _ _); crunch Hh Hw;
      unfold Cv2.merge3, Cv2.LUT, Cv2.cvtColor_LAB2BGR, Cv2.same_plane_shape, Np.is_empty;
      crunch Hh Hw; eexists; (split; [reflexivity|done]).
  - unfold Cv2.merge3, Cv2.cvtColor_LAB2BGR, Cv2.same_plane_shape, Np.is_empty;
      crunch Hh Hw; eexists; (split; [reflexivity|done]).
Qed.

Lemma white_balance_shape a h w :
  bgr_of_size h w a ->
  exists out, _auto_white_balance a = Ok out /\ bgr_of_size h w out.
Proof.
  intros Ha. shape_of a Ha. unfold _auto_white_balance, Np.channel. simpl.
  eexists. split; [reflexivity|done].
Qed.

(** C5.  On every non-empty image with 3 or 4 channels
    [PhotoEnhancer.enhance] returns an image of the same height, width
    and channel count, and the alpha channel of a 4-channel input comes
    out value for value as it went in. *)
Theorem enhance_keeps_shape_and_alpha K image :
  Cv2.color_source_ok image = true ->
  exists out,
    enhance K image = Ok out
    /\ rows out = rows image
    /\ cols out = cols image
    /\ depth out = depth image
    /\ (depth image = Some 4 -> forall y x, px out y x 3 = px image y x 3).
Proof.
  intros Hok. unfold Cv2.color_source_ok, Np.is_empty, Cv2.has_3_or_4 in Hok.
  destruct image as [h w d p]. simpl in *.
  destruct d as [d|]; [|by rewrite andb_false_r in Hok].
  apply andb_prop in Hok as [Hne Hd]. apply negb_true_iff in Hne.
  apply orb_false_elim in Hne as [Hne _]. apply orb_false_elim in Hne as [Hh Hw].
  assert (Hd' : d = 3 \/ d = 4) by lia. clear Hd.
  unfold enhance. unfold Np.take_channels at 1. simpl.
  set (bgr := mk_ndarray h w _ p).
  assert (Hb : bgr_of_size h w bgr).
  { unfold bgr, bgr_of_size. simpl. repeat split. f_equal.
    unfold Py.slice_len, Py.slice_index. destruct Hd' as [-> | ->]; reflexivity. }
  destruct (auto_exposure_shape K bgr h w Hh Hw Hb) as (e & He & Hs).
  assert (Hcolor : forall (k : ndarray -> result ndarray),
            (forall c, bgr_of_size h w c ->
               exists out, k c = Ok out /\ rows out = h /\ cols out = w /\ depth out = Some d
                           /\ (d = 4 -> forall y x, px out y x 3 = p y x 3)) ->
            exists out,
              (bgr ← _auto_exposure K bgr;
               bgr ← Cv2.bilateralFilter K bgr 5 40 40;
               bgr ← _auto_white_balance bgr;
               bgr ← Cv2.filter2D K bgr sharpen_kernel;
               rgb ← Cv2.cvtColor_BGR2RGB bgr;
               let pil_img := pil_enhance (Cv2.pil_contrast K) rgb 1.15 in
               let pil_img := pil_enhance (Cv2.pil_color K) pil_img 1.15 in
               bgr ← Cv2.cvtColor_RGB2BGR pil_img;
               k bgr) = Ok out
              /\ rows out = h /\ cols out = w /\ depth out = Some d
              /\ (d = 4 -> forall y x, px out y x 3 = p y x 3)).
  { intros k Hk. rewrite He. simpl.
    shape_of e Hs. unfold Cv2.bilateralFilter, Np.is_empty. crunch Hh Hw.
    unfold _auto_white_balance, Np.channel. crunch Hh Hw.
    unfold Cv2.filter2D, Np.is_empty. crunch Hh Hw.
    unfold Cv2.cvtColor_RGB2BGR, Cv2.cvtColor_BGR2RGB, Cv2.color_source_ok,
      Np.is_empty, Cv2.has_3_or_4.
    crunch Hh Hw. apply Hk. done. }
  destruct Hd' as [-> | ->]; simpl.
  - destruct (Hcolor (fun bgr => Ok bgr)) as (out & Hout & H1 & H2 & H3 & H4).
    { intros c (Hr & Hc & Hdc). exists c. repeat split; try done. }
    exists out. split; [exact Hout|]. repeat split; try done.
  - destruct (Hcolor (fun bgr => Np.dstack bgr (mk_ndarray h w None (fun y x _ => p y x 3))))
      as (out & Hout & H1 & H2 & H3 & H4).
    { intros c (Hr & Hc & Hdc). unfold Np.dstack. rewrite Hdc, Hr, Hc. simpl.
      rewrite !Z.eqb_refl. simpl. eexists. split; [reflexivity|]. simpl.
      repeat split; try done. }
    exists out. split; [exact Hout|]. repeat split; try done.
    intros _. by apply H4.
Qed.
End Enhancer.

Section Resizer.
Import PhotoEnhancement.






Lemma bidx_inside n i : 0 <= i < n -> Np.bidx n i = i.
Proof. intros H. unfold Np.bidx. destruct (n =? 1) eqn:E; lia. Qed.


(** The scaled size is computed in binary64 and truncated: a 147 by 147
    source on the 648 by 648 canvas comes out 647 by 647, and a very
    flat source loses a dimension altogether. *)
Example scaled_size_square : scaled_size 147 147 648 648 = Ok (647, 647).
Proof. vm_compute. reflexivity. Qed.

Example scaled_size_exact : scaled_size 40 20 64 64 = Ok (64, 32).
Proof. vm_compute. reflexivity. Qed.

Example scaled_size_flat : scaled_size 400 2 64 64 = Ok (64, 0).
Proof. vm_compute. reflexivity. Qed.

Example scaled_size_of_empty : scaled_size 0 10 64 64 = Raise Py.ZeroDivisionError.
Proof. reflexivity. Qed.



End Resizer.

Section Mask.
Import PhotoEnhancement.



Lemma oval_mask_result K image feather rx ry :
  Cv2.color_source_ok image = true ->
  0 < feather -> feather mod 2 = 1 ->
  Py.int_of_float (PrimFloat.mul (Py.float_of_int (cols image)) 0.48) = Ok rx -> 0 <= rx ->
  Py.int_of_float (PrimFloat.mul (Py.float_of_int (rows image)) 0.48) = Ok ry -> 0 <= ry ->
  exists out,
    OvalMask_apply K image feather = Ok out
    /\ rows out = rows image /\ cols out = cols image /\ depth out = Some 4
    /\ (forall y x, 0 <= y < rows image -> 0 <= x < cols image ->
          px out y x 3 =
          Cv2.mul_div255 (Cv2.alpha_of image y x)
                         (feathered K (rows image) (cols image) rx ry feather y x))
    /\ (forall y x c, c <> 3 -> px out y x c = px image y x c).
Proof.
  intros Hok Hf Hodd Hrx Hrx0 Hry Hry0.
  pose proof Hok as Hok'.
  unfold Cv2.color_source_ok in Hok'. apply andb_prop in Hok' as [Hne Hd].
  apply negb_true_iff in Hne.
  unfold Cv2.has_3_or_4 in Hd. destruct (depth image) as [d|] eqn:Hdep; [|done].
  assert (Hd34 : d = 3 \/ d = 4) by lia.
  unfold OvalMask_apply, Np.ndim, Np.shape2. rewrite Hdep. simpl.
  assert (Hzeros : Np.zeros2 (rows image) (cols image) =
                   Ok (mk_ndarray (rows image) (cols image) None (fun _ _ _ => 0))).
  { unfold Np.is_empty in Hne. apply orb_false_elim in Hne as [Hne _].
    apply orb_false_elim in Hne as [Hh Hw].
    unfold Np.zeros2. destruct (rows image <? 0) eqn:E1; [lia|].
    by destruct (cols image <? 0) eqn:E2; [lia|]. }
  assert (Hblur : (0 <? feather) && (feather mod 2 =? 1) = true).
  { apply andb_true_intro. split; lia. }
  assert (Hbgra : exists bgra,
            (if d =? 3 then Cv2.cvtColor_BGR2BGRA image else Ok image) = Ok bgra
            /\ rows bgra = rows image /\ cols bgra = cols image /\ depth bgra = Some 4
            /\ (forall y x, px bgra y x 3 = Cv2.alpha_of image y x)
            /\ (forall y x c, c <> 3 -> px bgra y x c = px image y x c)).
  { destruct Hd34 as [-> | ->]; simpl.
    - unfold Cv2.cvtColor_BGR2BGRA. rewrite Hok. eexists. split; [reflexivity|].
      simpl. repeat split; try done. intros y x c Hc. destruct (c =? 3) eqn:E; [lia|done].
    - exists image. repeat split; try done. intros y x. unfold Cv2.alpha_of. by rewrite Hdep. }
  destruct Hbgra as (bgra & -> & Hbr & Hbc & Hbd & Hba & Hbo). simpl.
  rewrite Hzeros. simpl. rewrite Hrx. simpl. rewrite Hry. simpl.
  unfold Cv2.ellipse. destruct (rx <? 0) eqn:E1; [lia|]. destruct (ry <? 0) eqn:E2; [lia|].
  simpl. unfold Cv2.GaussianBlur. simpl. rewrite Hblur. simpl.
  unfold Np.channel. rewrite Hbd. simpl.
  unfold Cv2.multiply_scaled, Cv2.same_plane_shape. simpl.
  rewrite Hbr, Hbc, !Z.eqb_refl. simpl.
  unfold Np.assign_channel, Np.bcast. rewrite Hbd. simpl. rewrite Hbr, Hbc, !Z.eqb_refl. simpl.
  eexists. split; [reflexivity|]. simpl. repeat split; try done.
  - intros y x Hy Hx. rewrite !bidx_inside by done. by rewrite Hba.
  - intros y x c Hc. destruct (c =? 3) eqn:E; [lia|]. by apply Hbo.
Qed.




End Mask.

Section SampleKernels.
Import PhotoEnhancement.




End SampleKernels.

Section Evaluated.

(** C1, witness: a dark image, on which the sample detector finds nothing. *)
Lemma blank_image_has_no_face :
  let out := process_image Sample.env Sample.processor "blank.jpg" "portrait.png" None
                           fresh_machine in
  out.1 = Ok no_face_result
  /\ stats out.2 !! "no_face" = Some 1
  /\ stats out.2 !! "total" = Some 1
  /\ trace out.2 = [LoadImage "blank.jpg"; RestoreFace; DetectFace].
Proof.
  destruct (no_face_is_terminal Sample.env Sample.processor "blank.jpg" "portrait.png" None
              fresh_machine (Sample.solid 40 40 (Some 3) 0) 0 0)
    as (H1 & _ & _ & _ & H5 & H6 & _ & _ & _ & H10);
    [reflexivity | vm_compute; reflexivity | vm_compute; reflexivity
     | vm_compute; reflexivity |].
  repeat split; assumption.
Defined.

(** C8, witness: a path the sample environment cannot read. *)
Lemma missing_file_is_an_error :
  let out := process_image Sample.env Sample.processor "missing.jpg" "portrait.png" None
                           fresh_machine in
  out.1 = Ok (with_error (new_result false) "Could not load image: missing.jpg")
  /\ stats out.2 !! "errors" = Some 1
  /\ stats out.2 !! "no_face" = Some 0
  /\ trace out.2 = [LoadImage "missing.jpg"].
Proof.
  destruct (load_failure_counts_as_error Sample.env Sample.processor "missing.jpg"
              "portrait.png" None fresh_machine 0 0)
    as (H1 & _ & H3 & _ & _ & H6 & H7 & _);
    [reflexivity | vm_compute; reflexivity | vm_compute; reflexivity |].
  repeat split; assumption.
Defined.


(** C2, witness: the default budget of 99 KB on a 648 by 648 canvas. *)
Lemma large_canvas_ends_at_48 :
  exists n : nat,
    (n <= 14)%nat
    /\ (forall i, (i < n)%nat ->
          99 * 1024 < Cv2.jpeg_size Sample.kernels (Sample.solid 648 648 (Some 3) 0)
                                    (90 - 3 * Z.of_nat i))
    /\ (Cv2.jpeg_size Sample.kernels (Sample.solid 648 648 (Some 3) 0)
                      (90 - 3 * Z.of_nat n) <= 99 * 1024
        \/ 90 - 3 * Z.of_nat n = 48).
Proof.
  destruct (size_bounded_encoding Sample.env "portrait.jpg"
              (Sample.solid 648 648 (Some 3) 0) default_options 99 fresh_machine)
    as (n & Hn & _ & Hall & Hend); [reflexivity | lia |].
  exists n. split; [exact Hn|]. split; [exact Hall | exact Hend].
Defined.

(** C10, witness: a budget of 0 kilobytes. *)
Lemma zero_budget_writes_once :
  save_jpeg Sample.env "portrait.jpg" (Sample.solid 648 648 (Some 3) 0)
            Sample.unbounded_options fresh_machine =
  (Ok tt,
   mk_machine initial_stats
     (<["portrait.jpg" := mk_file 1259712 (Some 90)]> ∅)
     [ImwriteJpeg "portrait.jpg" 90]).
Proof.
  destruct (no_budget_single_encoding Sample.env "portrait.jpg"
              (Sample.solid 648 648 (Some 3) 0) Sample.unbounded_options fresh_machine)
    as [_ Hrun]; [by right|].
  exact Hrun.
Defined.


(** C5, witness: a 6 by 4 matte of constant opacity 100. *)
Lemma matte_keeps_its_alpha :
  exists out,
    PhotoEnhancement.enhance Sample.kernels (Sample.solid 4 6 (Some 4) 100) = Ok out
    /\ rows out = 4 /\ cols out = 6 /\ depth out = Some 4
    /\ (forall y x, px out y x 3 = 100).
Proof.
  destruct (enhance_keeps_shape_and_alpha Sample.kernels (Sample.solid 4 6 (Some 4) 100))
    as (out & Hrun & Hr & Hc & Hd & Ha); [reflexivity|].
  exists out. split; [exact Hrun|]. repeat split; try assumption.
  intros y x. exact (Ha eq_refl y x).
Defined.

(** C6, witness: a helper whose landmark search raises, a helper
    that finds no face, and a processor without the capability. *)
Lemma failed_restoration_passes_through :
  FaceEnhancement.enhance (Sample.enhancer_with Sample.failing_helper)
                          (Sample.solid 40 40 (Some 3) 150) 0.7
  = Ok (Sample.solid 40 40 (Some 3) 150)
  /\ FaceEnhancement.enhance (Sample.enhancer_with Sample.blind_helper)
                             (Sample.solid 40 40 (Some 3) 150) 0.7
     = Ok (Sample.solid 40 40 (Some 3) 150)
  /\ FaceEnhancement.enhance Sample.no_enhancer (Sample.solid 40 40 (Some 3) 150) 0.7
     = Ok (Sample.solid 40 40 (Some 3) 150).
Proof.
  split; [|split].
  - destruct (restoration_never_aborts (Sample.enhancer_with Sample.failing_helper)
                (Sample.solid 40 40 (Some 3) 150) 0.7) as (_ & _ & H & _).
    destruct (H Sample.net Sample.failing_helper eq_refl eq_refl) as [_ Hraise].
    eapply Hraise. vm_compute. reflexivity.
  - destruct (restoration_never_aborts (Sample.enhancer_with Sample.blind_helper)
                (Sample.solid 40 40 (Some 3) 150) 0.7) as (_ & _ & H & _).
    destruct (H Sample.net Sample.blind_helper eq_refl eq_refl) as [Hnone _].
    eapply Hnone; [vm_compute; reflexivity | reflexivity].
  - destruct (restoration_never_aborts Sample.no_enhancer
                (Sample.solid 40 40 (Some 3) 150) 0.7) as (_ & H & _).
    apply H. reflexivity.
Defined.

End Evaluated.

(* ===================================================================== *)
(** ** face_detection.py, beyond the primary face *)
(* ===================================================================== *)

Section AllFaces.
Import FaceDetection.

Lemma detect_face_of_faces K (self : FaceDetector) image gray faces :
  to_gray K image = Ok gray ->
  face_detector self gray = Ok faces ->
  detect_face K self image = Ok (primary_face faces).
Proof.
  intros Hg Hf. unfold detect_face. rewrite Hg. simpl. rewrite Hf. simpl.
  destruct faces as [|r [|r2 rest]]; [done|done|].
  destruct (Z.of_nat (length (r :: r2 :: rest)) =? 0) eqn:E0;
    [apply Z.eqb_eq in E0; cbn [length] in E0; lia|].
  destruct (1 <? Z.of_nat (length (r :: r2 :: rest))) eqn:E1;
    [|apply Z.ltb_ge in E1; cbn [length] in E1; lia].
  pose proof (head_sorted_by_area_desc (r :: r2 :: rest)) as Hh.
  destruct (sorted_by_area_desc (r :: r2 :: rest)) as [|h t] eqn:Hs.
  - symmetry in Hh. by apply primary_face_none in Hh.
  - by rewrite <- Hh.
Qed.

(** X3.  [detect_face] and [detect_all_faces] agree: on the same image they
    raise the same exception or, when [detect_all_faces] returns a list,
    [detect_face] returns its primary face, which is one of the list's
    elements and is [None] only for the empty list. *)
Theorem detect_face_chooses_among_all_faces K (self : FaceDetector) image :
  match detect_all_faces K self image with
  | Ok faces =>
      detect_face K self image = Ok (primary_face faces)
      /\ (primary_face faces = None <-> faces = [])
      /\ (forall r, primary_face faces = Some r ->
            r ∈ faces /\ forall r', r' ∈ faces -> area r' <= area r)
  | Raise e => detect_face K self image = Raise e
  end.
Proof.
  unfold detect_all_faces.
  destruct (to_gray K image) as [gray|e] eqn:Hg; simpl.
  - destruct (face_detector self gray) as [faces|e] eqn:Hf; simpl.
    + split; [by eapply detect_face_of_faces|]. split.
      * split; [apply primary_face_none | by intros ->].
      * intros r Hr.
        destruct (primary_face_is_first_largest faces r Hr) as (b & a & -> & Hb & Ha).
        split; [set_solver|].
        intros r' Hr'. apply elem_of_app in Hr' as [Hr'|Hr'].
        -- specialize (Hb r' Hr'). lia.
        -- apply elem_of_cons in Hr' as [->|Hr']; [lia|]. by apply Ha.
    + unfold detect_face. rewrite Hg. simpl. by rewrite Hf.
  - unfold detect_face. by rewrite Hg.
Qed.

End AllFaces.

Section Align.
Import FaceDetection.

Lemma parts_from_ok lm : forall n a,
  (a + n <= length lm)%nat -> exists ps, parts_from lm a n = Ok ps.
Proof.
  induction n as [|n IH]; intros a Ha; [by eexists|].
  cbn [parts_from]. unfold Dlib.part, Dlib.full_object_detection.
  destruct (lookup_lt_is_Some_2 lm a ltac:(lia)) as [p ->]. simpl.
  destruct (IH (S a) ltac:(lia)) as [ps ->]. simpl. by eexists.
Qed.

Lemma parts_from_short lm : forall n a,
  (0 < n)%nat -> (length lm < a + n)%nat ->
  parts_from lm a n = Raise (Py.IndexError "Index out of range").
Proof.
  induction n as [|n IH]; intros a Hn Ha; [lia|].
  cbn [parts_from]. unfold Dlib.part, Dlib.full_object_detection.
  destruct (lm !! a) as [p|] eqn:Hp; simpl; [|done].
  apply lookup_lt_Some in Hp.
  by rewrite (IH (S a)) by lia.
Qed.

(** X4.  [align_face] needs the 48 first landmarks and a non-empty image,
    and returns an image of the height, width and channels of its
    argument.  With fewer than 48 landmarks it raises the [IndexError]
    of [landmarks.part] before anything is rotated. *)
Theorem align_face_keeps_the_frame K image lm :
  match align_face K image lm with
  | Ok out =>
      (48 <= length lm)%nat /\ Np.is_empty image = false
      /\ rows out = rows image /\ cols out = cols image
      /\ depth out = Cv2.mat_depth (depth image)
  | Raise e =>
      ((length lm < 48)%nat /\ e = Py.IndexError "Index out of range")
      \/ ((48 <= length lm)%nat /\ Np.is_empty image = true
          /\ e = Cv2.error "warpAffine: empty input")
  end.
Proof.
  unfold align_face.
  destruct (decide (length lm < 42)%nat) as [H42|H42].
  { rewrite (parts_from_short lm 6 36) by lia. left. split; [lia|done]. }
  destruct (parts_from_ok lm 6 36 ltac:(lia)) as [l ->].
  destruct (decide (length lm < 48)%nat) as [H48|H48].
  { rewrite (parts_from_short lm 6 42) by lia. left. split; [lia|done]. }
  destruct (parts_from_ok lm 6 42 ltac:(lia)) as [r ->].
  cbn [mbind result_bind Py.bind]. unfold Cv2.warp_rotation.
  destruct (Np.is_empty image) eqn:He.
  { right. split; [lia|done]. }
  unfold Np.is_empty in He.
  apply orb_false_elim in He as [He _]. apply orb_false_elim in He as [Hh Hw].
  rewrite Hh, Hw. simpl. repeat split; try done; lia.
Qed.

(** Witness: the 68 landmarks of the sample predictor on a 40 by 40
    matte. *)
Lemma sample_landmarks_keep_the_frame :
  exists out,
    align_face Sample.kernels (Sample.solid 40 40 (Some 4) 150) (repeat (20, 20) 68) = Ok out
    /\ rows out = 40 /\ cols out = 40 /\ depth out = Some 4.
Proof.
  pose proof (align_face_keeps_the_frame Sample.kernels (Sample.solid 40 40 (Some 4) 150)
                (repeat (20, 20) 68)) as H.
  destruct (align_face _ _ _) as [out|e] eqn:Hrun.
  - exists out. split; [reflexivity|]. destruct H as (_ & _ & Hr & Hc & Hd). done.
  - exfalso. destruct H as [[H _]|(_ & H & _)]; [|discriminate H].
    rewrite repeat_length in H. lia.
Defined.

End Align.

Section Crop.
Import FaceDetection.

Lemma slice_from_nonneg n i : 0 <= n -> 0 <= i -> Py.slice_start n i = Z.min i n.
Proof. intros Hn Hi. unfold Py.slice_start, Py.slice_index. destruct (i <? 0) eqn:E; lia. Qed.

Lemma slice_len_nonneg n i j :
  0 <= n -> 0 <= i -> 0 <= j -> j <= n -> Py.slice_len n i j = Z.max 0 (j - i).
Proof.
  intros Hn Hi Hj Hjn. unfold Py.slice_len, Py.slice_index.
  destruct (i <? 0) eqn:E1; destruct (j <? 0) eqn:E2; lia.
Qed.

(** X5.  The window [crop_face] cuts: the face rectangle widened by
    [int(face_w * margin)] to the left and to the right, by
    [int(int(face_h * margin) * 1.5)] above and by [int(face_h * margin)]
    below, clipped to the image.  The right and bottom bounds are
    exclusive, so column [right + margin_w] and row [bottom + margin_h]
    are not part of the crop.  Every pixel of the crop is the pixel of
    the image at the same place in the window; nothing outside the image
    is read. *)
Theorem crop_face_window image rect margin margin_w margin_h top_margin :
  0 <= rows image -> 0 <= cols image ->
  Py.int_of_float (PrimFloat.mul (Py.float_of_int (Dlib.width rect)) margin) = Ok margin_w ->
  Py.int_of_float (PrimFloat.mul (Py.float_of_int (Dlib.height rect)) margin) = Ok margin_h ->
  Py.int_of_float (PrimFloat.mul (Py.float_of_int margin_h) 1.5) = Ok top_margin ->
  0 <= Dlib.right rect + margin_w -> 0 <= Dlib.bottom rect + margin_h ->
  let x1 := Z.max 0 (Dlib.left rect - margin_w) in
  let y1 := Z.max 0 (Dlib.top rect - top_margin) in
  let x2 := Z.min (cols image) (Dlib.right rect + margin_w) in
  let y2 := Z.min (rows image) (Dlib.bottom rect + margin_h) in
  exists out,
    crop_face image rect margin = Ok out
    /\ rows out = Z.max 0 (y2 - y1) /\ cols out = Z.max 0 (x2 - x1)
    /\ depth out = depth image
    /\ rows out <= rows image /\ cols out <= cols image
    /\ (forall y x c, 0 <= y < rows out -> 0 <= x < cols out ->
          px out y x c = px image (y1 + y) (x1 + x) c
          /\ 0 <= y1 + y < rows image /\ 0 <= x1 + x < cols image).
Proof.
  intros Hr Hc Hmw Hmh Htm Hx Hy x1 y1 x2 y2.
  unfold crop_face. rewrite Hmw. cbn [mbind result_bind Py.bind].
  rewrite Hmh. cbn [mbind result_bind Py.bind]. rewrite Htm. cbn [mbind result_bind Py.bind].
  fold x1 y1 x2 y2. eexists. split; [reflexivity|]. unfold Np.crop. cbn [rows cols depth px].
  assert (Hx1 : 0 <= x1) by (unfold x1; lia). assert (Hy1 : 0 <= y1) by (unfold y1; lia).
  assert (Hx2 : 0 <= x2 <= cols image) by (unfold x2; lia).
  assert (Hy2 : 0 <= y2 <= rows image) by (unfold y2; lia).
  rewrite !slice_len_nonneg, !slice_from_nonneg by lia.
  repeat split; try lia.
  replace (Z.min y1 (rows image)) with y1 by lia.
  replace (Z.min x1 (cols image)) with x1 by lia. reflexivity.
Qed.

(** Witness: the sample face on a 40 by 40 image, with the default
    margin of 0.3: margins of 6 and 9, a crop of 34 rows and 31
    columns. *)
Lemma sample_face_is_cropped_with_margins :
  exists out,
    crop_face (Sample.solid 40 40 (Some 4) 150) Sample.face_box 0.3 = Ok out
    /\ rows out = 34 /\ cols out = 31 /\ depth out = Some 4.
Proof.
  destruct (crop_face_window (Sample.solid 40 40 (Some 4) 150) Sample.face_box 0.3 6 6 9)
    as (out & Hrun & Hr & Hc & Hd & _);
    [simpl; lia | simpl; lia | vm_compute; reflexivity | vm_compute; reflexivity
     | vm_compute; reflexivity | simpl; lia | simpl; lia |].
  exists out. split; [exact Hrun|]. split; [exact Hr|]. split; [exact Hc|exact Hd].
Defined.

End Crop.

(* ===================================================================== *)
(** ** background.py *)
(* ===================================================================== *)

Section Matting.
Import Background.

Lemma swap_rb_involutive c : Cv2.swap_rb (Cv2.swap_rb c) = c.
Proof.
  unfold Cv2.swap_rb.
  destruct (c =? 0) eqn:E0; [simpl; lia|].
  destruct (c =? 2) eqn:E2; [simpl; lia|].
  rewrite E0, E2. reflexivity.
Qed.

Lemma swap_rb_colour c : 0 <= c < 3 -> 0 <= Cv2.swap_rb c < 3.
Proof. intros H. unfold Cv2.swap_rb. destruct (c =? 0); [lia|]. destruct (c =? 2); lia. Qed.

(** X6.  [remove_background] hands the matting model the image with its red
    and blue channels exchanged (RGB) and exchanges them back in what the
    model returns: the result has four channels (BGRA) and the height and
    width of the model's output, its alpha is the model's alpha, and when
    the model keeps the colours it was given the result has the colours
    of the input at the channels of the input. *)
Theorem remove_background_restores_channel_order (self : BackgroundRemover) image rgba :
  Cv2.color_source_ok image = true ->
  let image_rgb :=
    mk_ndarray (rows image) (cols image) (Some 3)
               (fun y x c => px image y x (Cv2.swap_rb c)) in
  remove self image_rgb = Ok rgba ->
  Cv2.color_source_ok rgba = true ->
  exists out,
    remove_background self image = Ok out
    /\ rows out = rows rgba /\ cols out = cols rgba /\ depth out = Some 4
    /\ (forall y x, px out y x 3 = Cv2.alpha_of rgba y x)
    /\ (forall y x c, 0 <= c < 3 -> px out y x c = px rgba y x (Cv2.swap_rb c))
    /\ ((forall y x c, 0 <= c < 3 -> px rgba y x c = px image_rgb y x c) ->
        forall y x c, 0 <= c < 3 -> px out y x c = px image y x c).
Proof.
  intros Hok image_rgb Hrm Hok2.
  unfold remove_background, Cv2.cvtColor_BGR2RGB. rewrite Hok.
  cbn [mbind result_bind Py.bind]. fold image_rgb. rewrite Hrm.
  cbn [mbind result_bind Py.bind]. unfold Cv2.cvtColor_RGBA2BGRA. rewrite Hok2.
  eexists. split; [reflexivity|]. cbn [rows cols depth px].
  assert (Hc3 : forall c, 0 <= c < 3 -> (c =? 3) = false) by (intros; lia).
  repeat split.
  - intros y x c Hc. by rewrite Hc3.
  - intros Hkeep y x c Hc. rewrite Hc3 by done.
    rewrite Hkeep by by apply swap_rb_colour.
    unfold image_rgb. cbn [px]. by rewrite swap_rb_involutive.
Qed.

(** Witness: the sample matting model, which keeps the colours and
    returns full opacity. *)
Lemma sample_matte_keeps_colours :
  exists out,
    remove_background {| remove := Sample.matting |} (Sample.solid 40 40 (Some 3) 150) = Ok out
    /\ depth out = Some 4
    /\ (forall y x c, 0 <= c < 3 ->
          px out y x c = px (Sample.solid 40 40 (Some 3) 150) y x c).
Proof.
  destruct (remove_background_restores_channel_order
              {| remove := Sample.matting |} (Sample.solid 40 40 (Some 3) 150)
              (mk_ndarray 40 40 (Some 4) (fun y x c => if c =? 3 then 255 else 150)))
    as (out & Hrun & _ & _ & Hd & _ & _ & Hkeep); [reflexivity | reflexivity | reflexivity |].
  exists out. split; [exact Hrun|]. split; [exact Hd|].
  apply Hkeep. intros y x c Hc. cbn [px].
  destruct (c =? 3) eqn:E; [lia|reflexivity].
Defined.

End Matting.

Section Flatten.
Import Background.

Lemma byte_cases (P : Z -> Prop) :
  Forall P (seqZ 0 256) -> forall n, 0 <= n <= 255 -> P n.
Proof. intros H n Hn. rewrite Forall_forall in H. apply H. apply elem_of_seqZ. lia. Qed.

Lemma byte_times_zero n :
  0 <= n <= 255 -> PrimFloat.mul (Py.float_of_int n) 0 = 0%float.
Proof.
  revert n. apply byte_cases. vm_compute seqZ.
  repeat (constructor; [reflexivity|]). constructor.
Qed.

Lemma byte_times_one n :
  0 <= n <= 255 -> PrimFloat.mul (Py.float_of_int n) 1 = Py.float_of_int n.
Proof.
  revert n. apply byte_cases. vm_compute seqZ.
  repeat (constructor; [reflexivity|]). constructor.
Qed.

Lemma byte_plus_zero n :
  0 <= n <= 255 ->
  Np.to_uint8 (PrimFloat.add (Py.float_of_int n) 0) = n
  /\ Np.to_uint8 (PrimFloat.add 0 (Py.float_of_int n)) = n.
Proof.
  revert n. apply byte_cases. vm_compute seqZ.
  repeat (constructor; [split; vm_compute; reflexivity|]). constructor.
Qed.

(** A fully opaque element keeps its value, a fully transparent one
    takes the background's. *)
Lemma blend_opaque bg v : 0 <= bg <= 255 -> 0 <= v <= 255 -> blend bg v 255 = v.
Proof.
  intros Hbg Hv. unfold blend.
  change (PrimFloat.div (Py.float_of_int 255) 255) with 1%float.
  change (PrimFloat.sub 1 1) with 0%float.
  rewrite byte_times_zero, byte_times_one by done.
  by apply byte_plus_zero.
Qed.

Lemma blend_transparent bg v : 0 <= bg <= 255 -> 0 <= v <= 255 -> blend bg v 0 = bg.
Proof.
  intros Hbg Hv. unfold blend.
  change (PrimFloat.div (Py.float_of_int 0) 255) with 0%float.
  change (PrimFloat.sub 1 0) with 1%float.
  rewrite byte_times_zero, byte_times_one by done.
  by apply byte_plus_zero.
Qed.

(** Between the two the sum is truncated, and rounding can leave it
    just below an integer: a pixel of value 3 over a background of value
    3 comes out as 2 at opacity 5. *)
Example blend_truncates : blend 3 3 5 = 2.
Proof. vm_compute. reflexivity. Qed.

Lemma flatten_ok image bg :
  0 <= rows image -> 0 <= cols image ->
  flatten image bg =
  Ok (mk_ndarray (rows image) (cols image) (Some 3)
        (fun y x c => blend (Np.color_at bg c) (px image y x c) (px image y x 3))).
Proof.
  intros Hr Hc. unfold flatten, Np.full3.
  destruct (rows image <? 0) eqn:E1; [lia|]. destruct (cols image <? 0) eqn:E2; [lia|].
  reflexivity.
Qed.

(** X7.  [apply_background_color] on an image with an alpha channel returns
    a 3-channel image of the same height and width in which a fully
    opaque pixel keeps its colour and a fully transparent pixel has the
    background colour, the components of [background_color] laid along
    the channels in the order given.  An image with another number of
    channels is returned as it is; a 2-D array has no [shape[2]]. *)
Theorem apply_background_color_flattens image background_color :
  0 <= rows image -> 0 <= cols image ->
  (forall c, 0 <= c < 3 -> 0 <= Np.color_at background_color c <= 255) ->
  (depth image = None ->
   apply_background_color image background_color
   = Raise (Py.IndexError "tuple index out of range"))
  /\ (forall d, depth image = Some d -> d <> 4 ->
        apply_background_color image background_color = Ok image)
  /\ (depth image = Some 4 ->
      exists out,
        apply_background_color image background_color = Ok out
        /\ rows out = rows image /\ cols out = cols image /\ depth out = Some 3
        /\ (forall y x c, 0 <= c < 3 -> 0 <= px image y x c <= 255 ->
              (px image y x 3 = 255 -> px out y x c = px image y x c)
              /\ (px image y x 3 = 0 -> px out y x c = Np.color_at background_color c))).
Proof.
  intros Hr Hc Hbg. unfold apply_background_color, Np.shape2. split; [|split].
  - by intros ->.
  - intros d -> Hd. cbn [mbind result_bind Py.bind].
    destruct (d =? 4) eqn:E; [lia|done].
  - intros ->. cbn [mbind result_bind Py.bind]. simpl negb. cbn iota.
    rewrite flatten_ok by done. eexists. split; [reflexivity|]. cbn [rows cols depth px].
    repeat split.
    + intros ->. apply blend_opaque; [by apply Hbg|done].
    + intros ->. apply blend_transparent; [by apply Hbg|done].
Qed.

(** Witness: a matte that is opaque in its first row and transparent
    elsewhere, over the default background. *)
Lemma matte_over_default_background :
  exists out,
    apply_background_color
      (mk_ndarray 4 6 (Some 4) (fun y x c => if c =? 3 then (if y =? 0 then 255 else 0) else 100))
      (240, 240, 240) = Ok out
    /\ depth out = Some 3 /\ px out 0 0 0 = 100 /\ px out 1 0 0 = 240.
Proof.
  destruct (apply_background_color_flattens
              (mk_ndarray 4 6 (Some 4)
                 (fun y x c => if c =? 3 then (if y =? 0 then 255 else 0) else 100))
              (240, 240, 240))
    as (_ & _ & H); [simpl; lia | simpl; lia | |].
  { intros c Hc. unfold Np.color_at. destruct (c =? 0); [lia|]. destruct (c =? 1); lia. }
  destruct (H eq_refl) as (out & Hrun & _ & _ & Hd & Hpx).
  exists out. split; [exact Hrun|]. split; [exact Hd|]. split.
  - apply (Hpx 0 0 0); [lia | simpl; lia | reflexivity].
  - apply (Hpx 1 0 0); [lia | simpl; lia | reflexivity].
Defined.

End Flatten.

(* ===================================================================== *)
(** ** photo_enhancement.py: what the mask, the enhancer and the resizer accept *)
(* ===================================================================== *)

Section MaskBounds.
Import PhotoEnhancement.

Lemma mul_div255_shrinks a m : 0 <= a -> 0 <= m <= 255 -> 0 <= Cv2.mul_div255 a m <= a.
Proof.
  intros Ha Hm. unfold Cv2.mul_div255.
  assert (H0 : 0 <= a * m) by (apply Z.mul_nonneg_nonneg; lia).
  assert (H1 : a * m <= a * 255) by (apply Z.mul_le_mono_nonneg_l; lia).
  split.
  - apply Z.div_pos; lia.
  - apply Z.lt_succ_r. apply Z.div_lt_upper_bound; lia.
Qed.

(** X8.  The oval mask never adds opacity: where the feathered mask has a
    value an 8-bit array can hold, the alpha of the result is at most
    the opacity the input had at that pixel, and a transparent pixel
    stays transparent. *)
Theorem oval_mask_never_adds_opacity K image feather rx ry y x :
  Cv2.color_source_ok image = true ->
  0 < feather -> feather mod 2 = 1 ->
  Py.int_of_float (PrimFloat.mul (Py.float_of_int (cols image)) 0.48) = Ok rx -> 0 <= rx ->
  Py.int_of_float (PrimFloat.mul (Py.float_of_int (rows image)) 0.48) = Ok ry -> 0 <= ry ->
  0 <= y < rows image -> 0 <= x < cols image ->
  0 <= Cv2.alpha_of image y x ->
  0 <= feathered K (rows image) (cols image) rx ry feather y x <= 255 ->
  exists out,
    OvalMask_apply K image feather = Ok out
    /\ 0 <= px out y x 3 <= Cv2.alpha_of image y x
    /\ (Cv2.alpha_of image y x = 0 -> px out y x 3 = 0).
Proof.
  intros Hok Hf Hodd Hrx Hrx0 Hry Hry0 Hy Hx Ha Hm.
  destruct (oval_mask_result K image feather rx ry) as (out & Hrun & _ & _ & _ & Hpx & _);
    try done.
  exists out. split; [done|]. rewrite Hpx by done.
  pose proof (mul_div255_shrinks _ _ Ha Hm). split; [done|]. lia.
Qed.

(** Witness: a half-transparent 64 by 64 matte, at the pixel where the
    feathered edge of the sample kernels passes. *)
Lemma half_opaque_matte_stays_below :
  exists out,
    OvalMask_apply Sample.kernels (Sample.solid 64 64 (Some 4) 128) default_feather = Ok out
    /\ 0 <= px out 5 32 3 <= 128.
Proof.
  destruct (oval_mask_never_adds_opacity Sample.kernels (Sample.solid 64 64 (Some 4) 128)
              default_feather 30 30 5 32)
    as (out & Hrun & Hle & _);
    [reflexivity | reflexivity | reflexivity | vm_compute; reflexivity | lia
     | vm_compute; reflexivity | lia | simpl; lia | simpl; lia
     | vm_compute; discriminate | vm_compute; split; discriminate |].
  exists out. split; [exact Hrun | exact Hle].
Defined.




End MaskBounds.

Section EnhancerDomain.
Import PhotoEnhancement.

(** The colour steps of [enhance], from the exposure correction to the
    conversion back from PIL, on a non-empty 3-channel array: they
    return a 3-channel array of the same height and width. *)
Lemma colour_steps K bgr h w {A} (k : ndarray -> result A) :
  (h <=? 0) = false -> (w <=? 0) = false -> bgr_of_size h w bgr ->
  exists c,
    bgr_of_size h w c
    /\ (bgr ← _auto_exposure K bgr;
        bgr ← Cv2.bilateralFilter K bgr 5 40 40;
        bgr ← _auto_white_balance bgr;
        bgr ← Cv2.filter2D K bgr sharpen_kernel;
        rgb ← Cv2.cvtColor_BGR2RGB bgr;
        let pil_img := pil_enhance (Cv2.pil_contrast K) rgb 1.15 in
        let pil_img := pil_enhance (Cv2.pil_color K) pil_img 1.15 in
        bgr ← Cv2.cvtColor_RGB2BGR pil_img;
        k bgr) = k c.
Proof.
  intros Hh Hw Hb.
  destruct (auto_exposure_shape K bgr h w Hh Hw Hb) as (e & He & Hs).
  rewrite He. simpl.
  shape_of e Hs. unfold Cv2.bilateralFilter, Np.is_empty. crunch Hh Hw.
  unfold _auto_white_balance, Np.channel. crunch Hh Hw.
  unfold Cv2.filter2D, Np.is_empty. crunch Hh Hw.
  unfold Cv2.cvtColor_RGB2BGR, Cv2.cvtColor_BGR2RGB, Cv2.color_source_ok,
    Np.is_empty, Cv2.has_3_or_4.
  crunch Hh Hw. eexists. split; [|reflexivity]. done.
Qed.

(** X10.  [PhotoEnhancer.enhance] returns only on a non-empty array with at
    least three channels: a 2-D array, an array with one or two channels
    and an empty array make it raise.  What it returns has the height and
    width of its argument, and four channels for a 4-channel argument,
    three otherwise: channels beyond the fourth are dropped. *)
Theorem enhance_needs_a_colour_image K image out :
  enhance K image = Ok out ->
  exists d,
    depth image = Some d /\ 3 <= d /\ Np.is_empty image = false
    /\ rows out = rows image /\ cols out = cols image
    /\ depth out = Some (if d =? 4 then 4 else 3).
Proof.
  destruct image as [h w dep p]. unfold enhance, Np.take_channels, Np.shape2, Np.is_empty.
  cbn [rows cols depth px].
  destruct dep as [d|]; [|discriminate]. cbn [mbind result_bind Py.bind].
  set (bgr := mk_ndarray h w _ p).
  destruct (Cv2.color_source_ok bgr) eqn:Hok; last first.
  { unfold _auto_exposure, Cv2.cvtColor_BGR2LAB. rewrite Hok.
    destruct (d =? 4); [unfold Np.channel; cbn [depth]; destruct (3 <? d)|]; discriminate. }
  unfold Cv2.color_source_ok, Np.is_empty, Cv2.has_3_or_4 in Hok. cbn [rows cols depth bgr] in Hok.
  apply andb_prop in Hok as [Hne Hd]. apply negb_true_iff in Hne.
  apply orb_false_elim in Hne as [Hne Hd0]. apply orb_false_elim in Hne as [Hh Hw].
  assert (Hd3 : 3 <= d /\ Py.slice_len d 0 3 = 3).
  { unfold Py.slice_len, Py.slice_index in *.
    destruct (0 <? 0) eqn:E0; [lia|]. destruct (3 <? 0) eqn:E3; [lia|]. lia. }
  destruct Hd3 as [Hd3 Hlen].
  assert (Hb : bgr_of_size h w bgr).
  { unfold bgr, bgr_of_size. cbn [rows cols depth]. by rewrite Hlen. }
  intros Hrun. exists d. split; [done|]. split; [done|]. split.
  { rewrite Hh, Hw. simpl. lia. }
  destruct (d =? 4) eqn:E4.
  - unfold Np.channel in Hrun. cbn [depth rows cols px] in Hrun.
    destruct (3 <? d) eqn:E; [|lia]. cbn [mbind result_bind Py.bind] in Hrun.
    destruct (colour_steps K bgr h w
                (fun c => Np.dstack c (mk_ndarray h w None (fun y x _ => p y x 3))) Hh Hw Hb)
      as (c & (Hr & Hc & Hdc) & Heq).
    cbv zeta in Heq. rewrite Heq in Hrun. unfold Np.dstack in Hrun. rewrite Hdc, Hr, Hc in Hrun.
    cbn [depth rows cols] in Hrun. rewrite !Z.eqb_refl in Hrun. injection Hrun as <-. done.
  - cbn [mbind result_bind Py.bind] in Hrun.
    destruct (colour_steps K bgr h w (fun c => Ok c) Hh Hw Hb) as (c & (Hr & Hc & Hdc) & Heq).
    cbv zeta in Heq. rewrite Heq in Hrun. injection Hrun as <-. done.
Qed.

(** Witness: a 4 by 6 array with five channels comes back with three. *)
Lemma fifth_channel_is_dropped :
  exists out,
    enhance Sample.kernels (Sample.solid 4 6 (Some 5) 100) = Ok out
    /\ rows out = 4 /\ cols out = 6 /\ depth out = Some 3.
Proof.
  assert (Hok : Py.is_ok (enhance Sample.kernels (Sample.solid 4 6 (Some 5) 100)) = true)
    by (vm_compute; reflexivity).
  destruct (enhance Sample.kernels (Sample.solid 4 6 (Some 5) 100)) as [out|e] eqn:Hrun;
    [|discriminate Hok].
  exists out. split; [reflexivity|].
  destruct (enhance_needs_a_colour_image Sample.kernels (Sample.solid 4 6 (Some 5) 100)
              out Hrun) as (d & Hd & _ & _ & Hr & Hc & Ho).
  injection Hd as <-. split; [exact Hr|]. split; [exact Hc | exact Ho].
Defined.

End EnhancerDomain.

Section Exposure.
Import PhotoEnhancement.

(** The steps of [_auto_exposure] on the lightness plane: a plane
    of the same height and width comes out, the plane itself when the
    brightness is close to the target. *)
Lemma lightness_steps K (l : ndarray) h w (diff : float) :
  rows l = h -> cols l = w -> depth l = None ->
  (h <=? 0) = false -> (w <=? 0) = false ->
  exists p,
    (if Py.fgt (PrimFloat.abs diff) 10
     then
       l_clahe ← Cv2.clahe_apply K 1.5 (8, 8) l;
       let alpha_blend := Py.fmin (PrimFloat.div (PrimFloat.abs diff) 50) 0.7 in
       l2 ← Cv2.addWeighted K l (PrimFloat.sub 1 alpha_blend) l_clahe alpha_blend 0;
       if Py.fgt diff 20
       then
         let gamma := Py.fmin (PrimFloat.add 1 (PrimFloat.div diff 200)) 1.4 in
         let inv_gamma := PrimFloat.div 1 gamma in
         Ok (Cv2.LUT l2 (gamma_table K inv_gamma))
       else Ok l2
     else Ok l) = Ok (mk_ndarray h w None p)
    /\ (Py.fgt (PrimFloat.abs diff) 10 = false -> p = px l).
Proof.
  destruct l as [h0 w0 d0 p0]. cbn [rows cols depth]. intros -> -> -> Hh Hw.
  destruct (Py.fgt (PrimFloat.abs diff) 10).
  - unfold Cv2.clahe_apply, Np.is_empty. cbn [depth rows cols]. rewrite Hh, Hw.
    cbn [orb mbind result_bind Py.bind].
    unfold Cv2.addWeighted, Cv2.same_plane_shape. cbn [rows cols depth].
    rewrite !Z.eqb_refl. cbn [andb mbind result_bind Py.bind].
    destruct (Py.fgt diff 20); cbn [Cv2.LUT rows cols depth px];
      (eexists; split; [reflexivity|discriminate]).
  - exists p0. split; reflexivity.
Qed.

(** X11.  The exposure correction works on the lightness plane alone.  On a
    non-empty colour image [_auto_exposure] returns an image of the same
    height and width with three channels, each pixel converted back from
    a LAB triple whose [a] and [b] are those of the input pixel; and when
    the mean lightness is within 10 of the target 140, the lightness is
    that of the input pixel too, so that the result is the input taken
    to LAB and back. *)
Theorem auto_exposure_changes_only_lightness K image :
  Cv2.color_source_ok image = true ->
  let lab y x := Cv2.lab_of_bgr K (Cv2.pixel3 image y x) in
  let l := mk_ndarray (rows image) (cols image) None
                      (fun y x _ => Cv2.triple_at (lab y x) 0) in
  let brightness_diff := PrimFloat.sub 140 (Np.mean l 0) in
  exists out (l' : Z -> Z -> Z),
    _auto_exposure K image = Ok out
    /\ rows out = rows image /\ cols out = cols image /\ depth out = Some 3
    /\ (forall y x c,
          px out y x c =
          Cv2.triple_at (Cv2.bgr_of_lab K (l' y x, Cv2.triple_at (lab y x) 1,
                                           Cv2.triple_at (lab y x) 2)) c)
    /\ (Py.fgt (PrimFloat.abs brightness_diff) 10 = false ->
        forall y x, l' y x = Cv2.triple_at (lab y x) 0).
Proof.
  intros Hok lab l diff.
  pose proof Hok as Hok'. unfold Cv2.color_source_ok in Hok'.
  apply andb_prop in Hok' as [Hne _]. apply negb_true_iff in Hne.
  unfold Np.is_empty in Hne. apply orb_false_elim in Hne as [Hne _].
  apply orb_false_elim in Hne as [Hh Hw].
  assert (Hfinish : forall p : Z -> Z -> Z -> Z,
    exists out,
      (lab0 ← Cv2.merge3 (mk_ndarray (rows image) (cols image) None p)
                 (mk_ndarray (rows image) (cols image) None
                    (fun y x _ => Cv2.triple_at (lab y x) 1))
                 (mk_ndarray (rows image) (cols image) None
                    (fun y x _ => Cv2.triple_at (lab y x) 2));
       Cv2.cvtColor_LAB2BGR K lab0) = Ok out
      /\ rows out = rows image /\ cols out = cols image /\ depth out = Some 3
      /\ (forall y x c,
            px out y x c =
            Cv2.triple_at (Cv2.bgr_of_lab K (p y x 0, Cv2.triple_at (lab y x) 1,
                                             Cv2.triple_at (lab y x) 2)) c)).
  { intros p. unfold Cv2.merge3, Cv2.same_plane_shape. cbn [rows cols depth].
    rewrite !Z.eqb_refl. cbn [andb mbind result_bind Py.bind].
    unfold Cv2.cvtColor_LAB2BGR, Np.is_empty. cbn [rows cols depth]. rewrite Hh, Hw.
    cbn [orb negb andb]. eexists. split; [reflexivity|]. cbn [rows cols depth px].
    repeat split. }
  assert (Hsplit : _auto_exposure K image =
            (l1 ← (if Py.fgt (PrimFloat.abs diff) 10
                   then
                     l_clahe ← Cv2.clahe_apply K 1.5 (8, 8) l;
                     let alpha_blend :=
                       Py.fmin (PrimFloat.div (PrimFloat.abs diff) 50) 0.7 in
                     l2 ← Cv2.addWeighted K l (PrimFloat.sub 1 alpha_blend) l_clahe
                            alpha_blend 0;
                     if Py.fgt diff 20
                     then
                       let gamma :=
                         Py.fmin (PrimFloat.add 1 (PrimFloat.div diff 200)) 1.4 in
                       let inv_gamma := PrimFloat.div 1 gamma in
                       Ok (Cv2.LUT l2 (gamma_table K inv_gamma))
                     else Ok l2
                   else Ok l);
             lab0 ← Cv2.merge3 l1
                      (mk_ndarray (rows image) (cols image) None
                         (fun y x _ => Cv2.triple_at (lab y x) 1))
                      (mk_ndarray (rows image) (cols image) None
                         (fun y x _ => Cv2.triple_at (lab y x) 2));
             Cv2.cvtColor_LAB2BGR K lab0)).
  { unfold _auto_exposure, Cv2.cvtColor_BGR2LAB. rewrite Hok. reflexivity. }
  rewrite Hsplit. clear Hsplit.
  destruct (lightness_steps K l (rows image) (cols image) diff eq_refl eq_refl eq_refl Hh Hw)
    as (p & -> & Hp).
  cbn [mbind result_bind Py.bind].
  destruct (Hfinish p) as (out & Hrun & Hr & Hc & Hd & Hpx).
  exists out, (fun y x => p y x 0). split; [exact Hrun|].
  split; [exact Hr|]. split; [exact Hc|]. split; [exact Hd|]. split; [exact Hpx|].
  intros Hnear y x. rewrite (Hp Hnear). reflexivity.
Qed.

(** Witness: a well-exposed image (lightness 140 under the sample
    kernels, whose LAB is BGR itself) comes back as it was. *)
Lemma well_exposed_image_is_kept :
  exists out,
    _auto_exposure Sample.kernels (Sample.solid 4 6 (Some 3) 140) = Ok out
    /\ (forall y x c, 0 <= c < 3 -> px out y x c = 140).
Proof.
  destruct (auto_exposure_changes_only_lightness Sample.kernels
              (Sample.solid 4 6 (Some 3) 140))
    as (out & l' & Hrun & _ & _ & _ & Hpx & Hkeep); [reflexivity|].
  exists out. split; [exact Hrun|]. intros y x c Hc. rewrite Hpx.
  rewrite (Hkeep ltac:(vm_compute; reflexivity)). cbn.
  unfold Cv2.triple_at, Np.color_at.
  destruct (c =? 0); [reflexivity|]. destruct (c =? 1); reflexivity.
Defined.

End Exposure.

Section ResizerDomain.
Import PhotoEnhancement.

Lemma assign_window_shape dst y0 y1 x0 x1 src out :
  Np.assign_window dst y0 y1 x0 x1 src = Ok out ->
  rows out = rows dst /\ cols out = cols dst /\ depth out = depth dst.
Proof.
  unfold Np.assign_window. destruct (depth dst) as [d|]; [|discriminate].
  destruct (Np.src_axes src) as [[n0 n1] n2].
  destruct (_ && _); [|discriminate]. by intros [= <-].
Qed.

Lemma composite_window_shape canvas y0 y1 x0 x1 resized out :
  composite_window canvas y0 y1 x0 x1 resized = Ok out ->
  rows out = rows canvas /\ cols out = cols canvas /\ depth out = depth canvas.
Proof.
  unfold composite_window. destruct (_ && _); [|discriminate]. by intros [= <-].
Qed.

Lemma canvas_shape (transparent : bool) th tw bg canvas :
  (if transparent then Np.zeros3 th tw 4 else Np.full3 th tw bg) = Ok canvas ->
  rows canvas = th /\ cols canvas = tw
  /\ depth canvas = Some (if transparent then 4 else 3) /\ 0 <= th /\ 0 <= tw.
Proof.
  destruct transparent; unfold Np.zeros3, Np.full3.
  - destruct (th <? 0) eqn:E1; [discriminate|]. destruct (tw <? 0) eqn:E2; [discriminate|].
    simpl. intros [= <-]. simpl. repeat split; lia.
  - destruct (th <? 0) eqn:E1; [discriminate|]. destruct (tw <? 0) eqn:E2; [discriminate|].
    simpl. intros [= <-]. simpl. repeat split; lia.
Qed.

(** Whenever [resize_with_padding] returns, what it returns is a
    3-dimensional array of exactly the target height and width, with
    four channels on a transparent canvas and three on an opaque one. *)
Lemma resize_with_padding_shape K image tw th bg transparent out :
  resize_with_padding K image (tw, th) bg transparent = Ok out ->
  rows out = th /\ cols out = tw
  /\ depth out = Some (if transparent then 4 else 3) /\ 0 <= th /\ 0 <= tw.
Proof.
  unfold resize_with_padding.
  destruct (scaled_size _ _ _ _) as [[new_w new_h]|e]; [|discriminate].
  cbn [mbind result_bind Py.bind].
  destruct (Cv2.resize K image new_w new_h) as [resized|e]; [|discriminate].
  cbn [mbind result_bind Py.bind].
  destruct (if transparent then Np.zeros3 th tw 4 else Np.full3 th tw bg)
    as [canvas|e] eqn:Hcanvas; [|discriminate].
  cbn [mbind result_bind Py.bind].
  apply canvas_shape in Hcanvas as (Hr & Hc & Hd & Hth & Htw).
  assert (Hw : forall src,
             Np.assign_window canvas ((th - new_h) / 2) ((th - new_h) / 2 + new_h)
               ((tw - new_w) / 2) ((tw - new_w) / 2 + new_w) src = Ok out ->
             rows out = th /\ cols out = tw
             /\ depth out = Some (if transparent then 4 else 3) /\ 0 <= th /\ 0 <= tw).
  { intros src H. apply assign_window_shape in H as (H1 & H2 & H3).
    rewrite H1, H2, H3. done. }
  destruct (match depth resized with Some 4 => true | _ => false end).
  - destruct transparent; [apply Hw|].
    intros H. apply composite_window_shape in H as (H1 & H2 & H3).
    rewrite H1, H2, H3. done.
  - destruct transparent; [|apply Hw].
    destruct (Cv2.cvtColor_BGR2BGRA resized) as [bgra|e]; [|discriminate].
    cbn [mbind result_bind Py.bind]. apply Hw.
Qed.

(** X12.  [resize_with_padding] on every input: what it returns, when it
    returns, has exactly the target height and width, four channels on a
    transparent canvas and three on an opaque one; an image without rows
    or without columns makes it raise [ZeroDivisionError] when the ratio
    is computed, before [cv2.resize] is reached. *)
Theorem resize_returns_the_target_frame K image tw th bg transparent :
  (forall out, resize_with_padding K image (tw, th) bg transparent = Ok out ->
     rows out = th /\ cols out = tw /\ depth out = Some (if transparent then 4 else 3))
  /\ (rows image = 0 \/ cols image = 0 ->
      resize_with_padding K image (tw, th) bg transparent = Raise Py.ZeroDivisionError).
Proof.
  split.
  - intros out H. apply resize_with_padding_shape in H as (H1 & H2 & H3 & _). done.
  - intros H. unfold resize_with_padding, scaled_size, Py.truediv.
    destruct (cols image =? 0) eqn:Ew; [reflexivity|].
    destruct H as [H|H]; [|lia]. rewrite H. reflexivity.
Qed.

(** Witness: an array with no rows, and the 40 by 20 matte of the
    sample. *)
Lemma empty_source_divides_by_zero :
  resize_with_padding Sample.kernels (Sample.solid 0 40 (Some 3) 128) (64, 64)
                      (240, 240, 240) false = Raise Py.ZeroDivisionError
  /\ (forall out,
        resize_with_padding Sample.kernels (Sample.solid 20 40 (Some 4) 128) (64, 64)
                            (240, 240, 240) true = Ok out ->
        rows out = 64 /\ cols out = 64 /\ depth out = Some 4).
Proof.
  split.
  - apply (resize_returns_the_target_frame Sample.kernels (Sample.solid 0 40 (Some 3) 128)
             64 64 (240, 240, 240) false). left. reflexivity.
  - apply (resize_returns_the_target_frame Sample.kernels (Sample.solid 20 40 (Some 4) 128)
             64 64 (240, 240, 240) true).
Defined.

End ResizerDomain.

(* ===================================================================== *)
(** ** processor.py: the files a call writes *)
(* ===================================================================== *)

Section OutputFiles.
Import Files.









Section AllOrNothing.













End AllOrNothing.

End OutputFiles.

(* ===================================================================== *)
(** ** api/dependencies.py *)
(* ===================================================================== *)

Section ProcessingTimes.
Import Dependencies.

Lemma record_processing_time_spec times ms :
  record_processing_time times ms =
  drop (length (times ++ [ms]) - 100) (times ++ [ms]).
Proof.
  unfold record_processing_time, last_n, Py.slice_index.
  set (l := times ++ [ms]).
  destruct (100 <? Z.of_nat (length l)) eqn:E.
  - destruct (- (100) <? 0) eqn:E2; [|lia]. f_equal. lia.
  - replace (length l - 100)%nat with 0%nat by lia. reflexivity.
Qed.

Lemma recorded_from times : forall start,
  (length start <= 100)%nat ->
  foldl record_processing_time start times =
  drop (length (start ++ times) - 100) (start ++ times).
Proof.
  induction times as [|ms times IH]; intros start Hs.
  - simpl. rewrite app_nil_r. replace (length start - 100)%nat with 0%nat by lia. done.
  - cbn [foldl]. rewrite IH.
    + rewrite record_processing_time_spec.
      set (l := start ++ [ms]).
      assert (Hl : (length l <= 101)%nat) by (unfold l; rewrite length_app; simpl; lia).
      rewrite <- drop_app_le by lia. rewrite drop_drop.
      replace (start ++ ms :: times) with (l ++ times)
        by (unfold l; by rewrite <- app_assoc).
      f_equal. rewrite length_drop, !length_app. lia.
    + rewrite record_processing_time_spec, length_drop, length_app. simpl. lia.
Qed.

(** X15.  [record_processing_time] keeps a window of the last 100
    measurements.  Started on a list of at most 100 entries (the list is
    empty when the module is loaded), after any sequence of calls the
    list holds the most recent entries, oldest first, and never more
    than 100 of them; started empty, it holds exactly the last
    [min(n, 100)] of the [n] values recorded. *)
Theorem processing_times_keep_the_last_100 (start times : list float) :
  (length start <= 100)%nat ->
  let kept := foldl record_processing_time start times in
  kept = drop (length (start ++ times) - 100) (start ++ times)
  /\ (length kept <= 100)%nat
  /\ length kept = Nat.min (length start + length times) 100
  /\ (start = [] -> kept = drop (length times - 100) times).
Proof.
  intros Hs kept. assert (H := recorded_from times start Hs). fold kept in H.
  split; [exact H|]. rewrite H, length_drop, length_app.
  split; [lia|]. split; [lia|]. intros ->. reflexivity.
Qed.

(** Witness: 103 measurements recorded one after the other. *)
Lemma last_hundred_of_103 :
  foldl record_processing_time [] (replicate 3 1%float ++ replicate 100 2%float)
  = replicate 100 2%float.
Proof.
  destruct (processing_times_keep_the_last_100 []
              (replicate 3 1%float ++ replicate 100 2%float))
    as (_ & _ & _ & H); [simpl; lia|].
  rewrite (H eq_refl). reflexivity.
Defined.

End ProcessingTimes.

(* ===================================================================== *)
(** ** core/config.py *)
(* ===================================================================== *)

Section CorsOrigins.
Import Str.

Lemma split_cons sep c rest :
  split sep (c :: rest) =
  if (c =? sep)%N then [] :: split sep rest
  else match split sep rest with
       | piece :: pieces => (c :: piece) :: pieces
       | [] => [[c]]
       end.
Proof. reflexivity. Qed.

Lemma split_nonempty sep s : split sep s <> [].
Proof.
  induction s as [|c rest IH]; [done|]. rewrite split_cons.
  destruct (c =? sep)%N; [done|]. by destruct (split sep rest).
Qed.

Lemma split_length sep s :
  length (split sep s) = S (length (filter (fun c => c = sep) s)).
Proof.
  induction s as [|c rest IH]; [done|]. rewrite split_cons, filter_cons.
  destruct (c =? sep)%N eqn:E.
  - apply N.eqb_eq in E. rewrite decide_True by done. simpl. by rewrite IH.
  - apply N.eqb_neq in E. rewrite decide_False by done.
    destruct (split sep rest) as [|p ps] eqn:Hs; [by apply split_nonempty in Hs|].
    simpl in *. done.
Qed.

Lemma split_pieces sep s : Forall (fun piece => sep ∉ piece) (split sep s).
Proof.
  induction s as [|c rest IH]; [repeat constructor; apply not_elem_of_nil|].
  rewrite split_cons. destruct (c =? sep)%N eqn:E.
  - constructor; [apply not_elem_of_nil|done].
  - apply N.eqb_neq in E. destruct (split sep rest) as [|p ps].
    + repeat constructor. apply not_elem_of_cons. split; [done|apply not_elem_of_nil].
    + inversion IH as [|? ? Hp Hps]; subst. constructor; [|done].
      apply not_elem_of_cons. split; [done|done].
Qed.

Lemma split_without sep s : sep ∉ s -> split sep s = [s].
Proof.
  induction s as [|c rest IH]; [done|]. intros Hn. rewrite split_cons.
  apply not_elem_of_cons in Hn as [Hc Hn].
  destruct (c =? sep)%N eqn:E; [by apply N.eqb_eq in E|].
  by rewrite IH.
Qed.

Lemma split_app_sep sep l1 l2 :
  sep ∉ l1 -> split sep (l1 ++ sep :: l2) = l1 :: split sep l2.
Proof.
  induction l1 as [|c l1 IH]; intros Hn.
  - simpl. by rewrite N.eqb_refl.
  - apply not_elem_of_cons in Hn as [Hc Hn].
    simpl. destruct (c =? sep)%N eqn:E; [by apply N.eqb_eq in E|].
    by rewrite IH.
Qed.

Lemma lstrip_head s c : head (lstrip s) = Some c -> isspace c = false.
Proof.
  induction s as [|x s IH]; [done|]. simpl.
  destruct (isspace x) eqn:E; [done|]. simpl. by intros [= <-].
Qed.

Lemma lstrip_suffix s : exists ws, s = ws ++ lstrip s /\ Forall (fun c => isspace c = true) ws.
Proof.
  induction s as [|x s (ws & IH & Hws)]; [by exists []|]. simpl.
  destruct (isspace x) eqn:E.
  - exists (x :: ws). split; [by rewrite IH at 1|]. by constructor.
  - by exists [].
Qed.

Lemma lstrip_spaces ws s : Forall (fun c => isspace c = true) ws -> lstrip (ws ++ s) = lstrip s.
Proof. induction 1 as [|c ws Hc _ IH]; [done|]. simpl. by rewrite Hc. Qed.

Lemma lstrip_all_spaces ws : Forall (fun c => isspace c = true) ws -> lstrip ws = [].
Proof. intros H. rewrite <- (app_nil_r ws). by rewrite lstrip_spaces. Qed.

Lemma lstrip_stops c s : isspace c = false -> lstrip (c :: s) = c :: s.
Proof. intros H. simpl. by rewrite H. Qed.

Lemma rstrip_last s c : last (rstrip s) = Some c -> isspace c = false.
Proof. unfold rstrip. rewrite last_reverse. apply lstrip_head. Qed.

Lemma rstrip_prefix s : exists ws, s = rstrip s ++ ws /\ Forall (fun c => isspace c = true) ws.
Proof.
  unfold rstrip. destruct (lstrip_suffix (reverse s)) as (ws & Hs & Hws).
  exists (reverse ws). split; [|by apply Forall_reverse].
  rewrite <- reverse_app, <- Hs. by rewrite reverse_involutive.
Qed.

Lemma strip_head s c : head (strip s) = Some c -> isspace c = false.
Proof.
  unfold strip. destruct (rstrip_prefix (lstrip s)) as (ws & Hs & Hws).
  destruct (rstrip (lstrip s)) as [|x t] eqn:Hr; [done|].
  simpl. intros [= <-]. apply (lstrip_head s). rewrite Hs. done.
Qed.

Lemma strip_elem s c : c ∈ strip s -> c ∈ s.
Proof.
  unfold strip. destruct (rstrip_prefix (lstrip s)) as (ws & Hs & _).
  destruct (lstrip_suffix s) as (ws' & Hs' & _).
  intros Hc. rewrite Hs', Hs. apply elem_of_app. right. apply elem_of_app. by left.
Qed.

(** A string is clean when it has no comma and [strip] leaves it as it
    is. *)
Lemma strip_padded a o b :
  Forall (fun c => isspace c = true) a -> Forall (fun c => isspace c = true) b ->
  strip o = o -> strip (a ++ o ++ b) = o.
Proof.
  intros Ha Hb Ho. unfold strip. rewrite lstrip_spaces by done.
  destruct o as [|c o'].
  - simpl. rewrite lstrip_all_spaces by done. reflexivity.
  - assert (Hc : isspace c = false) by (apply (strip_head (c :: o')); by rewrite Ho).
    rewrite <- app_comm_cons, lstrip_stops by done. rewrite app_comm_cons.
    unfold rstrip. rewrite reverse_app, lstrip_spaces by by apply Forall_reverse.
    assert (Hl : exists x, last (c :: o') = Some x /\ isspace x = false).
    { destruct (last (c :: o')) as [x|] eqn:Hx.
      - exists x. split; [done|]. apply (rstrip_last (lstrip (c :: o'))).
        fold (strip (c :: o')). by rewrite Ho.
      - by apply last_None in Hx. }
    destruct Hl as (x & Hx & Hxs). rewrite <- head_reverse in Hx.
    destruct (reverse (c :: o')) as [|y t] eqn:Hrev; [done|]. injection Hx as ->.
    rewrite lstrip_stops by done. rewrite <- Hrev. by rewrite reverse_involutive.
Qed.

Lemma space_is_no_comma ws :
  Forall (fun c => isspace c = true) ws -> comma ∉ ws.
Proof.
  intros H Hin. rewrite Forall_forall in H. specialize (H _ Hin). done.
Qed.

(** X16.  Every origin [cors_origins_list] returns is clean: it holds no
    comma and neither starts nor ends with white space.  The list is
    never empty: it has one origin more than the setting has commas. *)
Theorem cors_origins_are_clean (self : Config.Settings) :
  let origins := Config.cors_origins_list self in
  length origins = S (length (filter (fun c => c = comma) (Config.cors_origins self)))
  /\ Forall (fun o => (comma ∉ o)
                      /\ (forall c, head o = Some c -> isspace c = false)
                      /\ (forall c, last o = Some c -> isspace c = false)) origins.
Proof.
  unfold Config.cors_origins_list.
  destruct (decide (Config.cors_origins self = [star])) as [->|Hne]; simpl.
  - split; [done|]. repeat constructor.
    + intros Hin. apply elem_of_cons in Hin as [Hin|Hin]; [done|by apply elem_of_nil in Hin].
    + by intros c [= <-].
    + by intros c [= <-].
  - split; [by rewrite length_fmap, split_length|].
    apply Forall_fmap. eapply Forall_impl; [apply split_pieces|].
    intros piece Hp. simpl. split; [|split].
    + intros Hin. by apply strip_elem in Hin.
    + apply strip_head.
    + unfold strip. apply rstrip_last.
Qed.

Lemma strip_split_join before after origins : forall pre,
  origins <> [] ->
  Forall (fun c => isspace c = true) pre ->
  Forall (fun c => isspace c = true) before ->
  Forall (fun c => isspace c = true) after ->
  Forall (fun o => (comma ∉ o) /\ strip o = o) origins ->
  strip <$> split comma (pre ++ join (before ++ [comma] ++ after) origins) = origins.
Proof.
  induction origins as [|o rest IH]; intros pre Hne Hpre Hb Ha Hclean; [done|].
  inversion Hclean as [|? ? [Hno Hstrip] Hrest]; subst.
  destruct rest as [|o2 rest].
  - simpl. rewrite split_without.
    + simpl. f_equal. rewrite <- (app_nil_r o) at 1. by apply strip_padded.
    + apply space_is_no_comma in Hpre. rewrite not_elem_of_app. done.
  - change (join (before ++ [comma] ++ after) (o :: o2 :: rest))
      with (o ++ (before ++ [comma] ++ after) ++ join (before ++ [comma] ++ after) (o2 :: rest)).
    replace (pre ++ o ++ (before ++ [comma] ++ after)
                 ++ join (before ++ [comma] ++ after) (o2 :: rest))
      with ((pre ++ o ++ before)
              ++ comma :: (after ++ join (before ++ [comma] ++ after) (o2 :: rest)))
      by (rewrite <- !app_assoc; reflexivity).
    rewrite split_app_sep.
    + rewrite fmap_cons. f_equal; [by apply strip_padded|]. by apply IH.
    + apply space_is_no_comma in Hpre. apply space_is_no_comma in Hb.
      rewrite !not_elem_of_app. done.
Qed.

(** X17.  [cors_origins_list] reads back what a comma-separated list says: a
    setting written by joining clean origins with a comma, with any
    white space before and after each comma, is parsed into exactly
    those origins, in order. *)
Theorem cors_origins_round_trip (self : Config.Settings) origins before after :
  origins <> [] ->
  Forall (fun c => isspace c = true) before ->
  Forall (fun c => isspace c = true) after ->
  Forall (fun o => (comma ∉ o) /\ strip o = o) origins ->
  Config.cors_origins self = join (before ++ [comma] ++ after) origins ->
  Config.cors_origins_list self = origins.
Proof.
  intros Hne Hb Ha Hclean Hs.
  pose proof (strip_split_join before after origins [] Hne ltac:(constructor) Hb Ha Hclean) as H.
  rewrite app_nil_l, <- Hs in H.
  unfold Config.cors_origins_list.
  destruct (decide (Config.cors_origins self = [star])) as [Hstar|_]; [|done].
  rewrite Hstar in H. rewrite <- H. reflexivity.
Qed.

(** Witness: the two origins of the sample settings, written with a
    comma and a blank. *)
Lemma two_origins_are_read_back :
  Config.cors_origins_list SampleSetup.settings
  = [of_string "https://a.example"; of_string "https://b.example"].
Proof.
  apply (cors_origins_round_trip SampleSetup.settings
           [of_string "https://a.example"; of_string "https://b.example"] [] [32%N]).
  - discriminate.
  - constructor.
  - repeat constructor.
  - apply (bool_decide_unpack _). vm_compute. exact I.
  - vm_compute. reflexivity.
Defined.

End CorsOrigins.

(* ===================================================================== *)
(** ** The constructors *)
(* ===================================================================== *)

Section Construction.
Import Loading FaceEnhancement.




End Construction.

Section Installation.
Import Loading.





End Installation.
